(** * Article Writing Haven: the article store and workflow engine of server.py

    A shallow embedding of [server.py] and the properties of its article
    store: derived title and word count, partial updates, status changes,
    bulk scheduling, reminders and deletion.

    Conventions of the embedding.
    - A Python [str] is a [string]; every [ascii] stands for the code point of
      the same number, so the texts covered are those over code points below
      256.
    - [article_metadata], the module-level dict, is a [gmap string metadata].
    - [DRAFTS_DIR] is an optional finite map from file names to file texts:
      [None] when the directory does not exist.  An article id is a file-name
      stem (the routes obtain it by splitting the URL path on the slash), so
      the path [DRAFTS_DIR / f"{article_id}.md"] is the file name
      [article_id +:+ ".md"].  A file maps to the text on disk: on the POSIX
      path of the source [write_text] stores the text as it is, and
      [read_text] returns it with universal newlines.
    - A handler returns its reply together with the next server state; an
      exception that leaves a handler is the reply [Raised]. *)

From Stdlib Require Import ZArith String Ascii List Lia Bool.
From stdpp Require Import base option gmap strings list sorting.

(** ** Python string operations *)

Module PyStr.

Definition LF : ascii := "010"%char.

Definition is_lf (c : ascii) : bool := Ascii.eqb c LF.

(** [str.isspace] on one code point below 256: tab to carriage return, the
    four separators 28..31, the space, NEL (133) and the no-break space (160). *)
Definition isspace (c : ascii) : bool :=
  let n := N_of_ascii c in
  ((9 <=? n) && (n <=? 13) || (28 <=? n) && (n <=? 32)
   || (n =? 133) || (n =? 160))%N.

(** [s.startswith(p)] *)
Fixpoint startswith (p s : string) : bool :=
  match p, s with
  | EmptyString, _ => true
  | String a p', String b s' => Ascii.eqb a b && startswith p' s'
  | String _ _, EmptyString => false
  end.

(** [s[n:]] *)
Fixpoint drop_chars (n : nat) (s : string) : string :=
  match n, s with
  | O, _ => s
  | S n', String _ s' => drop_chars n' s'
  | S _, EmptyString => EmptyString
  end.

(** [s[:n]] *)
Fixpoint take_chars (n : nat) (s : string) : string :=
  match n, s with
  | O, _ => EmptyString
  | S n', String c s' => String c (take_chars n' s')
  | S _, EmptyString => EmptyString
  end.

(** [s.split(sep)] for a separator of one character: the pieces between the
    separators, empty pieces kept; the empty text gives one empty piece. *)
Fixpoint split (sep : ascii) (s : string) : list string :=
  match s with
  | EmptyString => [EmptyString]
  | String c s' =>
      if Ascii.eqb c sep then EmptyString :: split sep s'
      else match split sep s' with
           | l :: ls => String c l :: ls
           | [] => [String c EmptyString]
           end
  end.

(** [sep.join(ls)] *)
Fixpoint join (sep : string) (ls : list string) : string :=
  match ls with
  | [] => EmptyString
  | l :: ls' =>
      match ls' with
      | [] => l
      | _ :: _ => l +:+ sep +:+ join sep ls'
      end
  end.

(** [s.lstrip()], [s.rstrip()] and [s.strip()] *)
Fixpoint lstrip (s : string) : string :=
  match s with
  | EmptyString => EmptyString
  | String c s' => if isspace c then lstrip s' else s
  end.

Fixpoint rstrip (s : string) : string :=
  match s with
  | EmptyString => EmptyString
  | String c s' =>
      match rstrip s' with
      | EmptyString => if isspace c then EmptyString else String c EmptyString
      | String _ _ as r => String c r
      end
  end.

Definition strip (s : string) : string := rstrip (lstrip s).

(** [s.split()] with no separator: the scan of CPython's split_whitespace.
    [tok] is the token being read ([""] between tokens); a whitespace
    character closes it, any other character extends it. *)
Fixpoint split_whitespace_from (tok : string) (s : string) : list string :=
  match s with
  | EmptyString =>
      match tok with EmptyString => [] | String _ _ => [tok] end
  | String c s' =>
      if isspace c then
        match tok with
        | EmptyString => split_whitespace_from EmptyString s'
        | String _ _ => tok :: split_whitespace_from EmptyString s'
        end
      else split_whitespace_from (tok +:+ String c EmptyString) s'
  end.

Definition split_whitespace (s : string) : list string :=
  split_whitespace_from EmptyString s.

(** [s.replace(old, "")] for a non-empty [old]: every occurrence met in a
    scan from the left is dropped; [skip] counts the characters of the
    occurrence being dropped that are still ahead. *)
Fixpoint remove_from (old : string) (skip : nat) (s : string) : string :=
  match s with
  | EmptyString => EmptyString
  | String c s' =>
      match skip with
      | S k => remove_from old k s'
      | O =>
          if startswith old s then remove_from old (String.length old - 1) s'
          else String c (remove_from old O s')
      end
  end.

Definition remove_all (old s : string) : string := remove_from old 0 s.

(** [s.endswith(p)] *)
Definition endswith (p s : string) : bool :=
  (String.length p <=? String.length s)%nat
  && String.eqb (drop_chars (String.length s - String.length p) s) p.

(** The text of the line that starts here: the characters before the next
    line feed. *)
Fixpoint line_rest (s : string) : string :=
  match s with
  | EmptyString => EmptyString
  | String c s' => if is_lf c then EmptyString else String c (line_rest s')
  end.

(** One attempt of the pattern [# (.+)$] at a position: the two literal
    characters, then the greedy [.+], which takes every character up to the
    next line feed and must take one; [$] (MULTILINE) holds there, before the
    line feed or at the end of the text.  The result is group 1. *)
Definition match_h1_here (s : string) : option string :=
  if startswith "# " s then
    match line_rest (drop_chars 2 s) with
    | EmptyString => None
    | String _ _ as g => Some g
    end
  else None.

(** [re.search(r'^# (.+)$', s, re.MULTILINE)]: the leftmost position where
    [^] holds (the start of the text, or just after a line feed: [bol]) and
    the pattern matches; group 1 of that match. *)
Fixpoint search_h1_from (bol : bool) (s : string) : option string :=
  match s with
  | EmptyString => None
  | String c s' =>
      match (if bol then match_h1_here s else None) with
      | Some g => Some g
      | None => search_h1_from (is_lf c) s'
      end
  end.

Definition search_h1 (s : string) : option string := search_h1_from true s.

Definition CR : ascii := "013"%char.

Definition is_cr (c : ascii) : bool := Ascii.eqb c CR.

(** Universal newlines, as a text file opened for reading applies them
    (the incremental newline decoder with translation on): a carriage return
    becomes a line feed, and a line feed that comes right after a carriage
    return ([pending_cr]) is dropped, so the pair is one line feed. *)
Fixpoint universal_newlines_from (pending_cr : bool) (s : string) : string :=
  match s with
  | EmptyString => EmptyString
  | String c s' =>
      if is_cr c then String LF (universal_newlines_from true s')
      else if is_lf c && pending_cr then universal_newlines_from false s'
      else String c (universal_newlines_from false s')
  end.

Definition universal_newlines (s : string) : string :=
  universal_newlines_from false s.

End PyStr.

(** ** Derived fields (lines 29-37) *)

(** [extract_title]: the first H1 of the markdown text. *)
Definition extract_title (content : string) : string :=
  match PyStr.search_h1 content with
  | Some g => PyStr.strip g
  | None => "Untitled"
  end.

(** [count_words] *)
Definition count_words (content : string) : Z :=
  Z.of_nat (length (PyStr.split_whitespace content)).

(** ** The date and time operations of Python's datetime module *)

Module PyDatetime.

Local Open Scope Z_scope.

(** A naive [datetime] (no time zone). *)
Record datetime : Type := Datetime {
  year : Z; month : Z; day : Z;
  hour : Z; minute : Z; second : Z; microsecond : Z
}.

Definition is_leap (y : Z) : bool :=
  (y mod 4 =? 0) && (negb (y mod 100 =? 0) || (y mod 400 =? 0)).

Definition DAYS_IN_MONTH : list Z :=
  [-1; 31; 28; 31; 30; 31; 30; 31; 31; 30; 31; 30; 31].

Definition DAYS_BEFORE_MONTH : list Z :=
  [-1; 0; 31; 59; 90; 120; 151; 181; 212; 243; 273; 304; 334].

Definition days_in_month (y m : Z) : Z :=
  if (m =? 2) && is_leap y then 29 else nth (Z.to_nat m) DAYS_IN_MONTH 0.

Definition days_before_year (y : Z) : Z :=
  let y := y - 1 in y * 365 + y / 4 - y / 100 + y / 400.

Definition days_before_month (y m : Z) : Z :=
  nth (Z.to_nat m) DAYS_BEFORE_MONTH 0 + (if (2 <? m) && is_leap y then 1 else 0).

Definition ymd2ord (y m d : Z) : Z :=
  days_before_year y + days_before_month y m + d.

Definition check_date_fields (y m d : Z) : bool :=
  (1 <=? y) && (y <=? 9999) && (1 <=? m) && (m <=? 12)
  && (1 <=? d) && (d <=? days_in_month y m).

Definition check_time_fields (hh mm ss us : Z) : bool :=
  (0 <=? hh) && (hh <=? 23) && (0 <=? mm) && (mm <=? 59)
  && (0 <=? ss) && (ss <=? 59) && (0 <=? us) && (us <=? 999999).

(** The constructor [datetime(year, month, day, hour, minute, second,
    microsecond)]; [None] is its ValueError. *)
Definition new_datetime (y m d hh mm ss us : Z) : option datetime :=
  if check_date_fields y m d && check_time_fields hh mm ss us
  then Some (Datetime y m d hh mm ss us) else None.

(** [dt.replace(day=d)] builds the value anew, so it checks the day against
    the month. *)
Definition replace_day (dt : datetime) (d : Z) : option datetime :=
  new_datetime (year dt) (month dt) d
               (hour dt) (minute dt) (second dt) (microsecond dt).

Definition digit_char (d : Z) : ascii := ascii_of_nat (48 + Z.to_nat d).

(** ["%0wd" % n] for [0 <= n < 10^w]: the [w] decimal digits of [n]. *)
Fixpoint zero_padded (w : nat) (n : Z) : string :=
  match w with
  | O => EmptyString
  | S w' => zero_padded w' (n / 10) +:+ String (digit_char (n mod 10)) EmptyString
  end.

(** [dt.isoformat()] *)
Definition isoformat (dt : datetime) : string :=
  zero_padded 4 (year dt) +:+ "-" +:+ zero_padded 2 (month dt) +:+ "-"
  +:+ zero_padded 2 (day dt) +:+ "T"
  +:+ zero_padded 2 (hour dt) +:+ ":" +:+ zero_padded 2 (minute dt) +:+ ":"
  +:+ zero_padded 2 (second dt)
  +:+ (if microsecond dt =? 0 then EmptyString
       else "." +:+ zero_padded 6 (microsecond dt)).

Definition digit_value (c : ascii) : option Z :=
  let n := Z.of_N (N_of_ascii c) in
  if (48 <=? n) && (n <=? 57) then Some (n - 48) else None.

(** Reads exactly [w] decimal digits. *)
Fixpoint parse_digits (w : nat) (acc : Z) (s : string) : option (Z * string) :=
  match w with
  | O => Some (acc, s)
  | S w' =>
      match s with
      | EmptyString => None
      | String c s' =>
          match digit_value c with
          | Some d => parse_digits w' (acc * 10 + d) s'
          | None => None
          end
      end
  end.

Definition expect (c : ascii) (s : string) : option string :=
  match s with
  | EmptyString => None
  | String c' s' => if Ascii.eqb c c' then Some s' else None
  end.

(** The time part [HH[:MM[:SS[.fff[fff]]]]]. *)
Definition parse_time (t : string) : option (Z * Z * Z * Z) :=
  '(hh, r) ← parse_digits 2 0 t;
  match r with
  | EmptyString => Some (hh, 0, 0, 0)
  | String _ _ =>
      r ← expect ":" r;
      '(mm, r) ← parse_digits 2 0 r;
      match r with
      | EmptyString => Some (hh, mm, 0, 0)
      | String _ _ =>
          r ← expect ":" r;
          '(ss, r) ← parse_digits 2 0 r;
          match r with
          | EmptyString => Some (hh, mm, ss, 0)
          | String _ _ =>
              r ← expect "." r;
              if (String.length r =? 6)%nat then
                '(us, _) ← parse_digits 6 0 r; Some (hh, mm, ss, us)
              else if (String.length r =? 3)%nat then
                '(ms, _) ← parse_digits 3 0 r; Some (hh, mm, ss, ms * 1000)
              else None
          end
      end
  end.

(** [datetime.fromisoformat(s)] on the texts [YYYY-MM-DD] and
    [YYYY-MM-DD*HH[:MM[:SS[.fff[fff]]]]] ([*] any one character), the forms
    every CPython release since 3.7 reads into a naive datetime; [None] is
    the ValueError.  A text with a UTC offset, or in one of the further ISO
    8601 forms newer releases read, is outside this embedding: no statement
    below depends on how such a text is treated. *)
Definition fromisoformat (s : string) : option datetime :=
  '(y, r) ← parse_digits 4 0 s;
  r ← expect "-" r;
  '(m, r) ← parse_digits 2 0 r;
  r ← expect "-" r;
  '(d, r) ← parse_digits 2 0 r;
  match r with
  | EmptyString => new_datetime y m d 0 0 0 0
  | String _ t =>
      '(hh, mm, ss, us) ← parse_time t;
      new_datetime y m d hh mm ss us
  end.

Definition toordinal (dt : datetime) : Z :=
  ymd2ord (year dt) (month dt) (day dt).

Definition seconds_of_day (dt : datetime) : Z :=
  second dt + minute dt * 60 + hour dt * 3600.

(** The [days] field of [timedelta(days, seconds, microseconds)] after
    normalisation: microseconds carry into seconds and seconds into days,
    both by floor division. *)
Definition timedelta_days (days seconds microseconds : Z) : Z :=
  days + (seconds + microseconds / 1000000) / 86400.

(** [(a - b).days] *)
Definition sub_days (a b : datetime) : Z :=
  timedelta_days (toordinal a - toordinal b)
                 (seconds_of_day a - seconds_of_day b)
                 (microsecond a - microsecond b).

(** Microseconds from the start of day 0 of the proleptic calendar. *)
Definition timestamp_us (dt : datetime) : Z :=
  (toordinal dt * 86400 + seconds_of_day dt) * 1000000 + microsecond dt.

Definition DAY_US : Z := 86400 * 1000000.

End PyDatetime.


(** ** The server state: drafts directory and metadata overlay *)

Definition NL : string := String PyStr.LF EmptyString.

(** Truth value of a [str], and of a [dict.get] result that is a [str] or
    [None]. *)
Definition truthy (s : string) : bool := negb (String.eqb s "").

Definition opt_truthy (o : option string) : bool :=
  match o with Some s => truthy s | None => false end.

(** One value of [article_metadata]. *)
Record metadata : Type := Metadata {
  status : string;
  publishDate : option string;
  sources : list string;
  wordGoal : Z
}.

Definition default_metadata : metadata := Metadata "draft" None [] 1000.

Definition with_status (s : string) (m : metadata) : metadata :=
  Metadata s (publishDate m) (sources m) (wordGoal m).

Definition with_publishDate (d : option string) (m : metadata) : metadata :=
  Metadata (status m) d (sources m) (wordGoal m).

Definition with_sources (l : list string) (m : metadata) : metadata :=
  Metadata (status m) (publishDate m) l (wordGoal m).

Definition with_wordGoal (g : Z) (m : metadata) : metadata :=
  Metadata (status m) (publishDate m) (sources m) g.

Record server : Type := Server {
  drafts : option (gmap string string);
  article_metadata : gmap string metadata
}.

(** The files of [DRAFTS_DIR] (none when the directory is missing). *)
Definition files (st : server) : gmap string string :=
  default ∅ (drafts st).

(** [DRAFTS_DIR / f"{article_id}.md"] *)
Definition filepath_of (article_id : string) : string := article_id +:+ ".md".

(** [filepath.exists()] *)
Definition path_exists (filepath : string) (st : server) : bool :=
  bool_decide (is_Some (files st !! filepath)).

(** [filepath.read_text(encoding='utf-8')] of an existing file.  The file is
    opened in text mode, so what was written comes back with universal
    newlines. *)
Definition read_text (filepath : string) (st : server) : string :=
  PyStr.universal_newlines (default EmptyString (files st !! filepath)).

(** [DRAFTS_DIR.mkdir(parents=True, exist_ok=True)] *)
Definition mkdir (st : server) : server :=
  Server (Some (files st)) (article_metadata st).

(** [filepath.write_text(content)], the directory being there. *)
Definition write_text (filepath content : string) (st : server) : server :=
  Server (Some (<[filepath := content]> (files st))) (article_metadata st).

(** [filepath.unlink()] of an existing file. *)
Definition unlink (filepath : string) (st : server) : server :=
  Server (Some (delete filepath (files st))) (article_metadata st).

(** ** Metadata overlay (lines 40-56) *)

Definition load_article_metadata (article_id : string) (st : server)
  : metadata * server :=
  match article_metadata st !! article_id with
  | Some m => (m, st)
  | None =>
      (default_metadata,
       Server (drafts st) (<[article_id := default_metadata]> (article_metadata st)))
  end.

Definition save_article_metadata (article_id : string) (m : metadata)
  (st : server) : server :=
  Server (drafts st) (<[article_id := m]> (article_metadata st)).

(** ** Article views (lines 59-112) *)

Record article_info : Type := ArticleInfo {
  info_id : string;
  info_filename : string;
  info_title : string;
  info_wordCount : Z;
  info_status : string;
  info_publishDate : option string;
  info_sources : list string;
  info_wordGoal : Z;
  info_content : string
}.

Definition get_article_info (filepath : string) (st : server)
  : article_info * server :=
  let content :=
    if path_exists filepath st then read_text filepath st else EmptyString in
  let filename := filepath in
  let article_id := PyStr.remove_all ".md" filename in
  let '(metadata, st) := load_article_metadata article_id st in
  (ArticleInfo article_id filename
     (if truthy content then extract_title content else "Untitled")
     (if truthy content then count_words content else 0%Z)
     (status metadata) (publishDate metadata) (sources metadata)
     (wordGoal metadata) content,
   st).

Record article_summary : Type := ArticleSummary {
  sum_id : string;
  sum_filename : string;
  sum_title : string;
  sum_wordCount : Z;
  sum_status : string;
  sum_publishDate : option string;
  sum_wordGoal : Z
}.

Definition summary_of (info : article_info) : article_summary :=
  ArticleSummary (info_id info) (info_filename info) (info_title info)
    (info_wordCount info) (info_status info) (info_publishDate info)
    (info_wordGoal info).

(** [sorted(DRAFTS_DIR.glob("*.md"))]: the paths of one directory are
    ordered by their file names, compared code point by code point
    ([String.le]). *)
Definition glob_md (fs : gmap string string) : list string :=
  merge_sort String.le
    (List.filter (PyStr.endswith ".md") (elements (dom fs))).

Fixpoint list_articles_loop (paths : list string) (st : server)
  : list article_summary * server :=
  match paths with
  | [] => ([], st)
  | filepath :: rest =>
      let '(info, st) := get_article_info filepath st in
      let '(articles, st) := list_articles_loop rest st in
      (summary_of info :: articles, st)
  end.

Definition list_articles (st : server) : list article_summary * server :=
  match drafts st with
  | None => ([], st)
  | Some fs => list_articles_loop (glob_md fs) st
  end.

Definition get_article (article_id : string) (st : server)
  : option article_info * server :=
  let filepath := filepath_of article_id in
  if path_exists filepath st then
    let '(info, st) := get_article_info filepath st in (Some info, st)
  else (None, st).

(** ** Saving (lines 115-148) *)

(** Lines 127-132: drop every line that starts with the H1 marker and put
    the new title line and an empty line first. *)
Definition rewrite_title (title content : string) : string :=
  let lines := PyStr.split PyStr.LF content in
  let new_lines :=
    List.filter (fun line => negb (PyStr.startswith "# " line)) lines in
  "# " +:+ title +:+ NL +:+ NL +:+ PyStr.join NL new_lines.

Definition save_article (article_id : string) (title content : option string)
  (new_status : option string) (new_sources : option (list string))
  (new_publishDate : option string) (new_wordGoal : option Z) (st : server)
  : article_info * server :=
  let filepath := filepath_of article_id in
  let st := mkdir st in
  let st :=
    match content with
    | Some content =>
        let content :=
          if opt_truthy title
          then rewrite_title (default EmptyString title) content
          else content in
        write_text filepath content st
    | None => st
    end in
  let '(metadata, st) := load_article_metadata article_id st in
  let metadata :=
    match new_status with Some s => with_status s metadata | None => metadata end in
  let metadata :=
    match new_sources with Some l => with_sources l metadata | None => metadata end in
  let metadata :=
    match new_publishDate with
    | Some d => with_publishDate (Some d) metadata
    | None => metadata
    end in
  let metadata :=
    match new_wordGoal with Some g => with_wordGoal g metadata | None => metadata end in
  let st := save_article_metadata article_id metadata st in
  get_article_info filepath st.

(** ** Request handlers (lines 180-429) *)

Inductive exn : Type := ValueError.

(** What a handler does with its request: a JSON response with its HTTP
    status, an error response, or an exception before any response. *)
Inductive reply (A : Type) : Type :=
| Sent (code : Z) (body : A)
| Failed (code : Z) (message : string)
| Raised (e : exn).

Arguments Sent {A} code body.
Arguments Failed {A} code message.
Arguments Raised {A} e.

(** GET /api/articles/<id> (lines 192-201) *)
Definition get_article_route (article_id : string) (st : server)
  : reply article_info * server :=
  match get_article article_id st with
  | (Some article, st) => (Sent 200 article, st)
  | (None, st) => (Failed 404 "Article not found", st)
  end.

(** GET /api/articles/status/<id> (lines 203-208) *)
Definition get_status_route (article_id : string) (st : server)
  : reply string * server :=
  let '(metadata, st) := load_article_metadata article_id st in
  (Sent 200 (status metadata), st).

(** POST /api/articles (lines 241-252); an absent key is [None]. *)
Definition post_create (article_id title content : option string) (st : server)
  : reply article_info * server :=
  let title := default "Untitled" title in
  let content :=
    default ("# " +:+ title +:+ NL +:+ NL +:+ "Start writing...") content in
  if negb (opt_truthy article_id) then (Failed 400 "Article ID required", st)
  else
    let '(article, st) :=
      save_article (default EmptyString article_id) (Some title) (Some content)
        (Some "draft") None None None st in
    (Sent 201 article, st).

(** POST /api/articles/<id>/update (lines 255-268) *)
Definition post_update (article_id : string) (title content : option string)
  (new_status : option string) (new_sources : option (list string))
  (new_publishDate : option string) (new_wordGoal : option Z) (st : server)
  : reply article_info * server :=
  let '(article, st) :=
    save_article article_id title content new_status new_sources
      new_publishDate new_wordGoal st in
  (Sent 200 article, st).

Definition valid_statuses : list string :=
  ["draft"; "review"; "scheduled"; "published"].

(** [new_status in valid_statuses] *)
Definition in_valid_statuses (new_status : option string) : bool :=
  match new_status with
  | Some s => existsb (String.eqb s) valid_statuses
  | None => false
  end.

(** POST /api/articles/<id>/status (lines 271-290) *)
Definition post_status (article_id : string) (new_status : option string)
  (new_publishDate : option string) (st : server)
  : reply (option string * option string) * server :=
  if negb (in_valid_statuses new_status) then (Failed 400 "Invalid status", st)
  else
    let '(metadata, st) := load_article_metadata article_id st in
    let metadata := with_status (default EmptyString new_status) metadata in
    let metadata :=
      if opt_truthy new_publishDate
      then with_publishDate new_publishDate metadata else metadata in
    let st := save_article_metadata article_id metadata st in
    (Sent 200 (new_status, new_publishDate), st).

(** POST /api/articles/<id>/schedule (lines 293-305) *)
Definition post_schedule (article_id : string) (new_publishDate : option string)
  (st : server) : reply (option string) * server :=
  let '(metadata, st) := load_article_metadata article_id st in
  let metadata := with_publishDate new_publishDate metadata in
  let metadata := with_status "scheduled" metadata in
  let st := save_article_metadata article_id metadata st in
  (Sent 200 new_publishDate, st).

(** The loop of lines 351-358; [results] is the list built so far. *)
Fixpoint bulk_schedule_loop (articles : list string)
  (currentDate : PyDatetime.datetime) (intervalDays : Z)
  (results : list (string * string)) (st : server)
  : reply (list (string * string)) * server :=
  match articles with
  | [] => (Sent 200 results, st)
  | article_id :: rest =>
      let new_publishDate := PyStr.take_chars 16 (PyDatetime.isoformat currentDate) in
      let '(metadata, st) := load_article_metadata article_id st in
      let metadata := with_status "scheduled" metadata in
      let metadata := with_publishDate (Some new_publishDate) metadata in
      let st := save_article_metadata article_id metadata st in
      let results := results ++ [(article_id, new_publishDate)] in
      match PyDatetime.replace_day currentDate
              (PyDatetime.day currentDate + intervalDays) with
      | Some currentDate =>
          bulk_schedule_loop rest currentDate intervalDays results st
      | None => (Raised ValueError, st)
      end
  end.

(** POST /api/bulk-schedule (lines 339-361) *)
Definition post_bulk_schedule (articles : list string)
  (startDate : option string) (intervalDays : option Z) (st : server)
  : reply (list (string * string)) * server :=
  let intervalDays := default 1%Z intervalDays in
  if bool_decide (articles = []) || negb (opt_truthy startDate) then
    (Failed 400 "Articles and start date required", st)
  else
    match PyDatetime.fromisoformat (default EmptyString startDate) with
    | None => (Raised ValueError, st)
    | Some currentDate =>
        bulk_schedule_loop articles currentDate intervalDays [] st
    end.

Record notification : Type := Notification {
  n_type : string;
  n_title : string;
  n_article : string;
  n_date : string
}.

(** The loop of lines 382-400. *)
Fixpoint notifications_loop (articles : list article_summary)
  (now : PyDatetime.datetime) (notifications : list notification)
  : reply (list notification) :=
  match articles with
  | [] => Sent 200 notifications
  | article :: rest =>
      if opt_truthy (sum_publishDate article) then
        let date := default EmptyString (sum_publishDate article) in
        match PyDatetime.fromisoformat date with
        | None => Raised ValueError
        | Some publishDate =>
            let daysUntil := PyDatetime.sub_days publishDate now in
            if (daysUntil =? 1)%Z then
              notifications_loop rest now
                (notifications ++
                 [Notification "reminder" "Publishing Tomorrow"
                    (sum_title article) date])
            else if (daysUntil =? 7)%Z then
              notifications_loop rest now
                (notifications ++
                 [Notification "reminder" "Publishing in 1 Week"
                    (sum_title article) date])
            else notifications_loop rest now notifications
        end
      else notifications_loop rest now notifications
  end.

(** POST /api/notifications (lines 377-403); [now] is [datetime.now()]. *)
Definition post_notifications (now : PyDatetime.datetime) (st : server)
  : reply (list notification) * server :=
  let '(articles, st) := list_articles st in
  (notifications_loop articles now [], st).

(** DELETE /api/articles/<id> (lines 416-429) *)
Definition do_DELETE (article_id : string) (st : server)
  : reply string * server :=
  let filepath := filepath_of article_id in
  if path_exists filepath st then
    let st := unlink filepath st in
    let st := Server (drafts st) (delete article_id (article_metadata st)) in
    (Sent 200 "Article deleted", st)
  else (Failed 404 "Article not found", st).

(** ** Requests against the store *)

Inductive request : Type :=
| ListArticles
| GetArticle (article_id : string)
| GetStatus (article_id : string)
| CreateArticle (article_id title content : option string)
| UpdateArticle (article_id : string) (title content : option string)
    (new_status : option string) (new_sources : option (list string))
    (new_publishDate : option string) (new_wordGoal : option Z)
| SetStatus (article_id : string) (new_status new_publishDate : option string)
| ScheduleArticle (article_id : string) (new_publishDate : option string)
| BulkSchedule (articles : list string) (startDate : option string)
    (intervalDays : option Z)
| Notifications (now : PyDatetime.datetime)
| DeleteArticle (article_id : string).

(** The server state after a request. *)
Definition handle (r : request) (st : server) : server :=
  match r with
  | ListArticles => snd (list_articles st)
  | GetArticle i => snd (get_article_route i st)
  | GetStatus i => snd (get_status_route i st)
  | CreateArticle i t c => snd (post_create i t c st)
  | UpdateArticle i t c s l d g => snd (post_update i t c s l d g st)
  | SetStatus i s d => snd (post_status i s d st)
  | ScheduleArticle i d => snd (post_schedule i d st)
  | BulkSchedule l d n => snd (post_bulk_schedule l d n st)
  | Notifications now => snd (post_notifications now st)
  | DeleteArticle i => snd (do_DELETE i st)
  end.

Definition handle_all (rs : list request) (st : server) : server :=
  fold_left (fun st r => handle r st) rs st.

(** ** Relations between server states *)

(** [st'] keeps every record of [st], value included. *)
Definition keeps_records (st st' : server) : Prop :=
  forall k m, article_metadata st !! k = Some m ->
              article_metadata st' !! k = Some m.

(** [st'] keeps every id of [st]. *)
Definition keeps_ids (st st' : server) : Prop :=
  forall k, is_Some (article_metadata st !! k) ->
            is_Some (article_metadata st' !! k).

(** ** The specification's wording of the derived fields *)

Module Spec.

Fixpoint all_space (s : string) : bool :=
  match s with
  | EmptyString => true
  | String c s' => PyStr.isspace c && all_space s'
  end.

Fixpoint no_space (s : string) : bool :=
  match s with
  | EmptyString => true
  | String c s' => negb (PyStr.isspace c) && no_space s'
  end.

Definition starts_with_space (s : string) : bool :=
  match s with
  | EmptyString => false
  | String c _ => PyStr.isspace c
  end.

(** "Maximal whitespace-separated non-empty tokens": the text is a run of
    whitespace, then a non-empty token without whitespace that ends at the
    end of the text or before a whitespace character, and so on. *)
Inductive tokens : string -> list string -> Prop :=
| tokens_nil ws : all_space ws = true -> tokens ws []
| tokens_cons ws tok rest toks :
    all_space ws = true ->
    tok <> EmptyString -> no_space tok = true ->
    rest = EmptyString \/ starts_with_space rest = true ->
    tokens rest toks ->
    tokens (ws +:+ tok +:+ rest) (tok :: toks).

(** "The text following the first line matching a top-level heading marker
    at line start; Untitled if no such line". *)
Definition deriveTitle (body : string) : string :=
  match List.find (PyStr.startswith "# ") (PyStr.split PyStr.LF body) with
  | Some line => PyStr.drop_chars 2 line
  | None => "Untitled"
  end.

End Spec.

(** A line that the title pattern matches: the marker and at least one more
    character. *)
Definition heading_line (line : string) : bool :=
  PyStr.startswith "# " line && (2 <? String.length line)%nat.

(** Group 1 of the first match, read off the lines of the text. *)
Definition first_h1 (lines : list string) : option string :=
  PyStr.drop_chars 2 <$> List.find heading_line lines.

(** No line feed in the text. *)
Fixpoint no_lf (s : string) : bool :=
  match s with
  | EmptyString => true
  | String c s' => negb (PyStr.is_lf c) && no_lf s'
  end.

(** The reminders the notification scan owes one listed article. *)
Definition reminders_of (now : PyDatetime.datetime) (article : article_summary)
  : list notification :=
  match sum_publishDate article with
  | None => []
  | Some date =>
      match PyDatetime.fromisoformat date with
      | None => []
      | Some d =>
          let days := ((PyDatetime.timestamp_us d - PyDatetime.timestamp_us now)
                       / PyDatetime.DAY_US)%Z in
          if (days =? 1)%Z then
            [Notification "reminder" "Publishing Tomorrow" (sum_title article) date]
          else if (days =? 7)%Z then
            [Notification "reminder" "Publishing in 1 Week" (sum_title article) date]
          else []
      end
  end.

(** Every publish date the scan will parse is a date text: each non-empty
    publish date of a listed article is a valid naive date in one of the
    forms [PyDatetime.fromisoformat] covers. *)
Definition dates_parse (articles : list article_summary) : Prop :=
  Forall (fun a => opt_truthy (sum_publishDate a) = true ->
                   is_Some (PyDatetime.fromisoformat
                              (default EmptyString (sum_publishDate a))))
         articles.


(** The same, as a check that can be run. *)
Definition dates_parse_b (articles : list article_summary) : bool :=
  forallb (fun a =>
             implb (opt_truthy (sum_publishDate a))
               (match PyDatetime.fromisoformat
                        (default EmptyString (sum_publishDate a)) with
                | Some _ => true
                | None => false
                end))
          articles.

(** ** Dates inside one month *)

(** The fields of a [datetime] the constructor accepted. *)
Definition valid_datetime (dt : PyDatetime.datetime) : Prop :=
  PyDatetime.check_date_fields (PyDatetime.year dt) (PyDatetime.month dt)
    (PyDatetime.day dt)
  && PyDatetime.check_time_fields (PyDatetime.hour dt) (PyDatetime.minute dt)
       (PyDatetime.second dt) (PyDatetime.microsecond dt) = true.

(** [dt] on another day of its month. *)
Definition on_day (dt : PyDatetime.datetime) (d : Z) : PyDatetime.datetime :=
  PyDatetime.Datetime (PyDatetime.year dt) (PyDatetime.month dt) d
    (PyDatetime.hour dt) (PyDatetime.minute dt) (PyDatetime.second dt)
    (PyDatetime.microsecond dt).

(** The text bulk scheduling assigns: the date cut to the minute. *)
Definition minute_text (dt : PyDatetime.datetime) : string :=
  PyStr.take_chars 16 (PyDatetime.isoformat dt).

(** The dates [start], [start + n days], ... inside the month of [start]. *)
Definition in_month_dates (start : PyDatetime.datetime) (n : Z)
  (ids : list string) : list (string * string) :=
  imap (fun k article_id =>
          (article_id,
           minute_text (on_day start (PyDatetime.day start + Z.of_nat k * n))))
       ids.

(** Every step of the walk over [ids] from [cur] stays in the month. *)
Definition stays_in_month (n : Z) (cur : PyDatetime.datetime)
  (ids : list string) : Prop :=
  forall k : nat, (1 <= k <= length ids)%nat ->
    (1 <= PyDatetime.day cur + Z.of_nat k * n
     <= PyDatetime.days_in_month (PyDatetime.year cur) (PyDatetime.month cur))%Z.

(** ** Routing (lines 180-223, 225-405 and 411-431) *)

Definition SLASH : ascii := "/"%char.

(** [s.lstrip(c)] for one character [c]. *)
Fixpoint lstrip_char (c : ascii) (s : string) : string :=
  match s with
  | EmptyString => EmptyString
  | String a s' => if Ascii.eqb a c then lstrip_char c s' else s
  end.

(** Where [do_GET] sends the path of a request. *)
Inductive get_route : Type :=
| GetList
| GetOne (article_id : string)
| GetStatusOf (article_id : string)
| GetHealth
| GetFile (filepath content_type : string)
| GetNotFound.

Definition route_get (path : string) : get_route :=
  let parts := PyStr.split SLASH path in
  let in_articles := PyStr.startswith "/api/articles/" path in
  if String.eqb path "/api/articles" then GetList
  else if in_articles && (length parts =? 4)%nat then GetOne (nth 3 parts "")
  else if in_articles && (length parts =? 5)%nat
          && String.eqb (nth 3 parts "") "status"
  then GetStatusOf (nth 4 parts "")
  else if String.eqb path "/api/health" then GetHealth
  else if String.eqb path "/" || String.eqb path "/index.html"
  then GetFile "index.html" "text/html"
  else if PyStr.endswith ".css" path
  then GetFile (lstrip_char SLASH path) "text/css"
  else if PyStr.endswith ".js" path
  then GetFile (lstrip_char SLASH path) "application/javascript"
  else GetNotFound.

(** Where [do_POST] (and [do_PUT], which calls it) sends the path. *)
Inductive post_route : Type :=
| PostCreate
| PostUpdate (article_id : string)
| PostStatus (article_id : string)
| PostSchedule (article_id : string)
| PostAI
| PostSearch
| PostBulkSchedule
| PostMilestones
| PostNotifications
| PostNotFound.

Definition route_post (path : string) : post_route :=
  let parts := PyStr.split SLASH path in
  let in_articles := PyStr.startswith "/api/articles/" path in
  if String.eqb path "/api/articles" then PostCreate
  else if in_articles && PyStr.endswith "/update" path
          && (length parts =? 5)%nat
  then PostUpdate (nth 3 parts "")
  else if in_articles && PyStr.endswith "/status" path
          && (length parts =? 5)%nat
  then PostStatus (nth 3 parts "")
  else if in_articles && PyStr.endswith "/schedule" path
          && (length parts =? 5)%nat
  then PostSchedule (nth 3 parts "")
  else if String.eqb path "/api/ai" then PostAI
  else if String.eqb path "/api/search" then PostSearch
  else if String.eqb path "/api/bulk-schedule" then PostBulkSchedule
  else if String.eqb path "/api/milestones" then PostMilestones
  else if String.eqb path "/api/notifications" then PostNotifications
  else PostNotFound.

(** Where [do_DELETE] sends the path. *)
Inductive delete_route : Type :=
| DeleteOne (article_id : string)
| DeleteNotFound.

Definition route_delete (path : string) : delete_route :=
  let parts := PyStr.split SLASH path in
  if PyStr.startswith "/api/articles/" path && (length parts =? 4)%nat
  then DeleteOne (nth 3 parts "")
  else DeleteNotFound.

(** ** Further notions for the properties of the store *)

(** The character [c] does not occur in the text. *)
Fixpoint no_char (c : ascii) (s : string) : bool :=
  match s with
  | EmptyString => true
  | String a s' => negb (Ascii.eqb a c) && no_char c s'
  end.

(** [p in s]: the text [p] occurs in [s]. *)
Fixpoint occurs (p s : string) : bool :=
  PyStr.startswith p s
  || match s with
     | EmptyString => false
     | String _ s' => occurs p s'
     end.

(** The metadata an id has for every reader: its record, or the default
    record while none is stored. *)
Definition effective_metadata (article_id : string) (st : server) : metadata :=
  default default_metadata (article_metadata st !! article_id).

(** Two states with the same files and the same effective metadata. *)
Definition same_content (st st' : server) : Prop :=
  files st' = files st
  /\ forall k, effective_metadata k st' = effective_metadata k st.

(** The requests that only read. *)
Definition read_only (r : request) : bool :=
  match r with
  | ListArticles | GetArticle _ | GetStatus _ | Notifications _ => true
  | _ => false
  end.

(** A date cut to the minute. *)
Definition to_minute (dt : PyDatetime.datetime) : PyDatetime.datetime :=
  PyDatetime.Datetime (PyDatetime.year dt) (PyDatetime.month dt)
    (PyDatetime.day dt) (PyDatetime.hour dt) (PyDatetime.minute dt) 0 0.

(** The record bulk scheduling and the schedule route leave for a date. *)
Definition scheduled_on (date : option string) (old : metadata) : metadata :=
  Metadata "scheduled" date (sources old) (wordGoal old).

(** A record whose publish date the reminder scan can read. *)
Definition has_readable_date (st : server) (article_id : string) : Prop :=
  exists date dt,
    publishDate <$> article_metadata st !! article_id = Some (Some date)
    /\ PyDatetime.fromisoformat date = Some dt
    /\ PyDatetime.second dt = 0%Z /\ PyDatetime.microsecond dt = 0%Z.

(** A dated pair of the bulk scheduling reply that reads back. *)
Definition readable_pair (p : string * string) : Prop :=
  exists dt, PyDatetime.fromisoformat (snd p) = Some dt
    /\ PyDatetime.second dt = 0%Z /\ PyDatetime.microsecond dt = 0%Z.

(** ** States and inputs of the examples *)

(** An overlay record without a document: what a status read of a never
    saved id leaves behind. *)
Definition orphan_record : server :=
  snd (get_status_route "ghost" (Server (Some ∅) ∅)).

(** The title a get reports after one save of a title and a body into an
    empty store. *)
Definition round_trip_title (title body : string) : option string :=
  let st' := snd (save_article "post" (Some title) (Some body)
                    None None None None (Server None ∅)) in
  info_title <$> fst (get_article "post" st').

(** The clock and the store of the reminder example: five saved articles,
    dated one day, two days and a week and a little ahead of the clock, in
    the past, and not at all. *)
Definition reminder_now : PyDatetime.datetime :=
  PyDatetime.Datetime 2024 3 10 9 30 0 0.

Definition reminder_store : server :=
  let save i d st :=
    snd (save_article i (Some i) (Some "text") (Some "scheduled") None d None st) in
  save "undated" None
    (save "past" (Some "2024-03-01")
       (save "week" (Some "2024-03-17T10:15")
          (save "day-after" (Some "2024-03-12T09:30")
             (save "tomorrow" (Some "2024-03-11T09:30") (Server None ∅))))).

(** The reminder store after the schedule route stored a text that is no
    date for the article "past". *)
Definition silenced_store : server :=
  snd (post_schedule "past" (Some "next week") reminder_store).

(** * Facts about the string operations *)

#[local] Arguments Ascii.eqb : simpl never.
#[local] Arguments PyStr.isspace : simpl never.

Lemma str_app_cons c s t : String c s +:+ t = String c (s +:+ t).
Proof. reflexivity. Qed.

Lemma str_app_nil_r s : s +:+ "" = s.
Proof. induction s as [|c s IH]; [reflexivity|]. by rewrite str_app_cons, IH. Qed.

Lemma str_app_assoc s t u : (s +:+ t) +:+ u = s +:+ (t +:+ u).
Proof.
  induction s as [|c s IH]; [reflexivity|].
  by rewrite !str_app_cons, IH.
Qed.

(** ** The operations on sample inputs *)

Example split_keeps_empty_pieces :
  PyStr.split PyStr.LF ("a" +:+ NL +:+ NL +:+ "b" +:+ NL) = ["a"; ""; "b"; ""]
  /\ PyStr.split PyStr.LF "" = [""].
Proof. split; reflexivity. Qed.

Example universal_newlines_sample :
  PyStr.universal_newlines
    ("# A" +:+ String PyStr.CR "B" +:+ String PyStr.CR NL +:+ NL +:+ "x"
     +:+ String PyStr.CR "")
  = "# A" +:+ NL +:+ "B" +:+ NL +:+ NL +:+ "x" +:+ NL.
Proof. reflexivity. Qed.

Example remove_all_md : PyStr.remove_all ".md" "a.md.mdx.m.md" = "ax.m".
Proof. reflexivity. Qed.

Example strip_vertical_tab :
  PyStr.strip (String " " (String "011" "a b" +:+ String "009" "")) = "a b".
Proof. reflexivity. Qed.

Example extract_title_blank_heading : extract_title "#  " = "".
Proof. reflexivity. Qed.

Example extract_title_second_match :
  extract_title ("x" +:+ NL +:+ "# A" +:+ NL +:+ "# B") = "A".
Proof. reflexivity. Qed.

Example isoformat_minutes :
  PyStr.take_chars 16 (PyDatetime.isoformat (PyDatetime.Datetime 2024 1 31 9 5 7 0))
  = "2024-01-31T09:05".
Proof. reflexivity. Qed.

Example fromisoformat_forms :
  PyDatetime.fromisoformat "2024-01-31" = Some (PyDatetime.Datetime 2024 1 31 0 0 0 0)
  /\ PyDatetime.fromisoformat "2024-01-31T09:05"
     = Some (PyDatetime.Datetime 2024 1 31 9 5 0 0)
  /\ PyDatetime.fromisoformat "2024-01-31 09:05:07.123"
     = Some (PyDatetime.Datetime 2024 1 31 9 5 7 123000)
  /\ PyDatetime.fromisoformat "2023-02-29" = None
  /\ PyDatetime.fromisoformat "2024-1-31" = None
  /\ PyDatetime.fromisoformat "" = None.
Proof. repeat split; reflexivity. Qed.

Example replace_day_leaves_month :
  PyDatetime.replace_day (PyDatetime.Datetime 2024 1 31 0 0 0 0) 32 = None.
Proof. reflexivity. Qed.

Example sub_days_rounds_down :
  PyDatetime.sub_days (PyDatetime.Datetime 2024 3 11 9 30 0 0)
    (PyDatetime.Datetime 2024 3 10 9 30 0 1) = 0%Z
  /\ PyDatetime.sub_days (PyDatetime.Datetime 2024 3 1 0 0 0 0)
       (PyDatetime.Datetime 2024 3 10 9 30 0 0) = (-10)%Z.
Proof. split; reflexivity. Qed.

Example list_articles_sorted :
  map sum_id (fst (list_articles reminder_store))
  = ["day-after"; "past"; "tomorrow"; "undated"; "week"].
Proof. vm_compute. reflexivity. Qed.

(** ** Whitespace splitting *)

Lemma split_whitespace_from_blank ws s :
  Spec.all_space ws = true ->
  PyStr.split_whitespace_from "" (ws +:+ s) = PyStr.split_whitespace_from "" s.
Proof.
  induction ws as [|c ws IH]; intros Hws; [reflexivity|].
  simpl in Hws. apply andb_true_iff in Hws as [Hc Hws].
  rewrite str_app_cons. simpl. rewrite Hc. auto.
Qed.

Lemma split_whitespace_from_token tok t s :
  Spec.no_space t = true ->
  PyStr.split_whitespace_from tok (t +:+ s)
  = PyStr.split_whitespace_from (tok +:+ t) s.
Proof.
  revert tok. induction t as [|c t IH]; intros tok Ht.
  - by rewrite str_app_nil_r.
  - simpl in Ht. apply andb_true_iff in Ht as [Hc Ht].
    apply negb_true_iff in Hc.
    rewrite str_app_cons. simpl. rewrite Hc, IH by done.
    by rewrite str_app_assoc.
Qed.

Lemma split_whitespace_from_close tok rest :
  tok <> "" ->
  rest = "" \/ Spec.starts_with_space rest = true ->
  PyStr.split_whitespace_from tok rest
  = tok :: PyStr.split_whitespace_from "" rest.
Proof.
  intros Htok [-> | Hsp].
  - simpl. by destruct tok.
  - destruct rest as [|c rest]; [done|]. simpl in *. rewrite Hsp.
    by destruct tok.
Qed.

Lemma split_whitespace_all_space ws :
  Spec.all_space ws = true -> PyStr.split_whitespace ws = [].
Proof.
  intros Hws. unfold PyStr.split_whitespace.
  rewrite <- (str_app_nil_r ws). by rewrite split_whitespace_from_blank.
Qed.

(** The tokens of the specification are the ones [str.split] returns. *)
Lemma tokens_unique s toks :
  Spec.tokens s toks -> PyStr.split_whitespace s = toks.
Proof.
  induction 1 as [ws Hws | ws tok rest toks Hws Htok Hns Hrest _ IH].
  - by apply split_whitespace_all_space.
  - unfold PyStr.split_whitespace in *.
    rewrite split_whitespace_from_blank by done.
    rewrite split_whitespace_from_token by done.
    change ("" +:+ tok) with tok.
    rewrite split_whitespace_from_close by done.
    by rewrite IH.
Qed.

Lemma tokens_space_cons c s toks :
  PyStr.isspace c = true -> Spec.tokens s toks -> Spec.tokens (String c s) toks.
Proof.
  intros Hc [ws Hws | ws tok rest toks' Hws Htok Hns Hrest Hr].
  - constructor. simpl. by rewrite Hc.
  - rewrite <- str_app_cons. constructor; try done. simpl. by rewrite Hc.
Qed.

Lemma no_space_snoc tok c :
  Spec.no_space tok = true -> PyStr.isspace c = false ->
  Spec.no_space (tok +:+ String c "") = true.
Proof.
  intros Ht Hc. induction tok as [|a tok IH]; simpl in *.
  - by rewrite Hc.
  - apply andb_true_iff in Ht as [-> Ht]. simpl. auto.
Qed.

Lemma split_whitespace_from_tokens s : forall tok,
  Spec.no_space tok = true ->
  Spec.tokens (tok +:+ s) (PyStr.split_whitespace_from tok s).
Proof.
  induction s as [|c s IH]; intros tok Htok.
  - simpl. destruct tok as [|a tok].
    + by constructor.
    + apply (Spec.tokens_cons "" (String a tok) "" []); try done; auto.
      by constructor.
  - simpl. destruct (PyStr.isspace c) eqn:Hc.
    + pose proof (tokens_space_cons c s _ Hc (IH "" eq_refl)) as Hs.
      destruct tok as [|a tok]; [exact Hs|].
      apply (Spec.tokens_cons "" (String a tok) (String c s)); try done.
      right. exact Hc.
    + specialize (IH (tok +:+ String c "") (no_space_snoc _ _ Htok Hc)).
      by rewrite str_app_assoc in IH.
Qed.

Lemma split_whitespace_tokens s : Spec.tokens s (PyStr.split_whitespace s).
Proof. apply (split_whitespace_from_tokens s ""). reflexivity. Qed.


(** ** Lines and the title pattern *)

Lemma split_line_rest s :
  PyStr.split PyStr.LF s = PyStr.line_rest s :: tail (PyStr.split PyStr.LF s).
Proof.
  induction s as [|c s IH]; [reflexivity|].
  simpl. unfold PyStr.is_lf. destruct (Ascii.eqb c PyStr.LF); [reflexivity|].
  rewrite IH. reflexivity.
Qed.

Lemma split_tail_cons c s :
  tail (PyStr.split PyStr.LF (String c s))
  = if PyStr.is_lf c then PyStr.split PyStr.LF s
    else tail (PyStr.split PyStr.LF s).
Proof.
  simpl. unfold PyStr.is_lf. destruct (Ascii.eqb c PyStr.LF); [reflexivity|].
  by rewrite (split_line_rest s).
Qed.

Lemma startswith_h1_line_rest s :
  PyStr.startswith "# " (PyStr.line_rest s) = PyStr.startswith "# " s.
Proof.
  destruct s as [|a [|b s]]; [reflexivity| |].
  - simpl. destruct (PyStr.is_lf a) eqn:Ha; simpl; by rewrite andb_false_r.
  - simpl. destruct (PyStr.is_lf a) eqn:Ha.
    { apply Ascii.eqb_eq in Ha as ->. reflexivity. }
    simpl. destruct (PyStr.is_lf b) eqn:Hb; simpl; [|reflexivity].
    apply Ascii.eqb_eq in Hb as ->. reflexivity.
Qed.

Lemma startswith_h1_inv s :
  PyStr.startswith "# " s = true -> exists r, s = String "#" (String " " r).
Proof.
  destruct s as [|a [|b r]]; simpl; try done.
  - by rewrite andb_false_r.
  - rewrite andb_true_r. intros [Ha Hb]%andb_true_iff.
    apply Ascii.eqb_eq in Ha as <-. apply Ascii.eqb_eq in Hb as <-. eauto.
Qed.

Lemma match_h1_here_line s :
  PyStr.match_h1_here s
  = if heading_line (PyStr.line_rest s)
    then Some (PyStr.drop_chars 2 (PyStr.line_rest s)) else None.
Proof.
  unfold PyStr.match_h1_here, heading_line.
  rewrite startswith_h1_line_rest.
  destruct (PyStr.startswith "# " s) eqn:Hs; [|reflexivity].
  apply startswith_h1_inv in Hs as [r ->]. simpl.
  by destruct (PyStr.line_rest r).
Qed.

Lemma search_h1_from_lines s :
  PyStr.search_h1_from true s = first_h1 (PyStr.split PyStr.LF s)
  /\ PyStr.search_h1_from false s = first_h1 (tail (PyStr.split PyStr.LF s)).
Proof.
  induction s as [|c s [IHt IHf]]; [by split|].
  assert (PyStr.search_h1_from false (String c s)
          = first_h1 (tail (PyStr.split PyStr.LF (String c s)))) as Hf.
  { rewrite split_tail_cons. simpl.
    by destruct (PyStr.is_lf c). }
  split; [|exact Hf].
  change (PyStr.search_h1_from true (String c s))
    with (match PyStr.match_h1_here (String c s) with
          | Some g => Some g
          | None => PyStr.search_h1_from false (String c s)
          end).
  rewrite Hf, match_h1_here_line, (split_line_rest (String c s)).
  unfold first_h1.
  set (line := PyStr.line_rest (String c s)).
  set (rest := tail (PyStr.split PyStr.LF (String c s))).
  cbn [List.find tail]. by destruct (heading_line line).
Qed.

Lemma extract_title_lines body :
  extract_title body
  = match List.find heading_line (PyStr.split PyStr.LF body) with
    | Some line => PyStr.strip (PyStr.drop_chars 2 line)
    | None => "Untitled"
    end.
Proof.
  unfold extract_title, PyStr.search_h1.
  rewrite (proj1 (search_h1_from_lines body)). unfold first_h1.
  by destruct (List.find _ _).
Qed.

Lemma line_rest_app t r :
  no_lf t = true -> PyStr.line_rest (t +:+ String PyStr.LF r) = t.
Proof.
  induction t as [|c t IH]; intros Ht; [reflexivity|].
  simpl in Ht. apply andb_true_iff in Ht as [Hc Ht].
  apply negb_true_iff in Hc.
  rewrite str_app_cons. simpl. rewrite Hc. by rewrite IH.
Qed.

Lemma split_app_lf x y :
  no_lf x = true ->
  PyStr.split PyStr.LF (x +:+ String PyStr.LF y) = x :: PyStr.split PyStr.LF y.
Proof.
  induction x as [|c x IH]; intros Hx; [reflexivity|].
  simpl in Hx. apply andb_true_iff in Hx as [Hc Hx].
  apply negb_true_iff in Hc. unfold PyStr.is_lf in Hc.
  rewrite str_app_cons. simpl. rewrite Hc. by rewrite IH.
Qed.

Lemma split_no_lf x : no_lf x = true -> PyStr.split PyStr.LF x = [x].
Proof.
  induction x as [|c x IH]; intros Hx; [reflexivity|].
  simpl in Hx. apply andb_true_iff in Hx as [Hc Hx].
  apply negb_true_iff in Hc. unfold PyStr.is_lf in Hc.
  simpl. rewrite Hc. by rewrite IH.
Qed.

Lemma split_lines_no_lf s :
  Forall (fun line => no_lf line = true) (PyStr.split PyStr.LF s).
Proof.
  induction s as [|c s IH]; [by repeat constructor|].
  simpl. destruct (Ascii.eqb c PyStr.LF) eqn:Hc; [by constructor|].
  destruct (PyStr.split PyStr.LF s) as [|l ls]; [by repeat constructor; simpl;
    unfold PyStr.is_lf; rewrite Hc|].
  inversion IH; subst. constructor; [|done].
  simpl. unfold PyStr.is_lf. by rewrite Hc.
Qed.

Lemma join_cons_cons sep l l' ls :
  PyStr.join sep (l :: l' :: ls) = l +:+ sep +:+ PyStr.join sep (l' :: ls).
Proof. reflexivity. Qed.

(** Splitting what was joined gives the lines back. *)
Lemma split_join lines :
  lines <> [] -> Forall (fun line => no_lf line = true) lines ->
  PyStr.split PyStr.LF (PyStr.join NL lines) = lines.
Proof.
  induction lines as [|l [|l' ls] IH]; intros Hne Hall; [done| |].
  - inversion Hall; subst. by apply split_no_lf.
  - inversion Hall; subst. rewrite join_cons_cons.
    change (l +:+ NL +:+ PyStr.join NL (l' :: ls))
      with (l +:+ String PyStr.LF (PyStr.join NL (l' :: ls))).
    rewrite split_app_lf by done. f_equal. by apply IH.
Qed.

Lemma rewrite_title_lines title content :
  no_lf title = true ->
  PyStr.split PyStr.LF (rewrite_title title content)
  = ("# " +:+ title) :: "" ::
    PyStr.split PyStr.LF
      (PyStr.join NL
         (List.filter (fun line => negb (PyStr.startswith "# " line))
            (PyStr.split PyStr.LF content))).
Proof.
  intros Ht. unfold rewrite_title.
  set (rest := PyStr.join NL _).
  change ("# " +:+ title +:+ NL +:+ NL +:+ rest)
    with (("# " +:+ title) +:+ String PyStr.LF (String PyStr.LF rest)).
  rewrite split_app_lf by (simpl; exact Ht).
  reflexivity.
Qed.

Lemma extract_title_rewrite title content :
  title <> "" -> no_lf title = true ->
  extract_title (rewrite_title title content) = PyStr.strip title.
Proof.
  intros Hne Ht. unfold rewrite_title.
  set (rest := PyStr.join NL _).
  unfold extract_title, PyStr.search_h1.
  change ("# " +:+ title +:+ NL +:+ NL +:+ rest)
    with (String "#" (String " " (title +:+ String PyStr.LF (NL +:+ rest)))).
  cbn [PyStr.search_h1_from]. unfold PyStr.match_h1_here.
  cbn [PyStr.startswith PyStr.drop_chars]. simpl Ascii.eqb. cbn [andb].
  rewrite line_rest_app by done.
  by destruct title.
Qed.

Lemma strip_trimmed_cons c t :
  PyStr.isspace c = false ->
  PyStr.rstrip (String c t) = String c t ->
  PyStr.strip (String c t) = String c t.
Proof. intros Hc Hr. unfold PyStr.strip. simpl. by rewrite Hc. Qed.


(** * Facts about the store *)

Lemma load_article_metadata_fst article_id st :
  fst (load_article_metadata article_id st)
  = default default_metadata (article_metadata st !! article_id).
Proof.
  unfold load_article_metadata.
  by destruct (article_metadata st !! article_id).
Qed.

Lemma load_article_metadata_drafts article_id st :
  drafts (snd (load_article_metadata article_id st)) = drafts st.
Proof.
  unfold load_article_metadata.
  by destruct (article_metadata st !! article_id).
Qed.

Lemma load_article_metadata_overlay article_id st :
  article_metadata (snd (load_article_metadata article_id st))
  = <[article_id := default default_metadata (article_metadata st !! article_id)]>
      (article_metadata st).
Proof.
  unfold load_article_metadata.
  destruct (article_metadata st !! article_id) as [m|] eqn:Hm; simpl; [|done].
  by rewrite insert_id.
Qed.

Lemma load_article_metadata_present article_id m st :
  article_metadata st !! article_id = Some m ->
  load_article_metadata article_id st = (m, st).
Proof. intros Hm. unfold load_article_metadata. by rewrite Hm. Qed.

Lemma files_eq st st' : drafts st' = drafts st -> files st' = files st.
Proof. unfold files. by intros ->. Qed.

Lemma path_exists_eq filepath st st' :
  files st' = files st -> path_exists filepath st' = path_exists filepath st.
Proof. unfold path_exists. by intros ->. Qed.

Lemma get_article_info_snd filepath st :
  snd (get_article_info filepath st)
  = snd (load_article_metadata (PyStr.remove_all ".md" filepath) st).
Proof.
  unfold get_article_info.
  by destruct (load_article_metadata _ st).
Qed.

Lemma get_article_info_content filepath st :
  info_content (fst (get_article_info filepath st))
  = if path_exists filepath st then read_text filepath st else "".
Proof.
  unfold get_article_info.
  by destruct (load_article_metadata _ st).
Qed.

Lemma get_article_info_title filepath st :
  info_title (fst (get_article_info filepath st))
  = let content := info_content (fst (get_article_info filepath st)) in
    if truthy content then extract_title content else "Untitled".
Proof.
  rewrite get_article_info_content. unfold get_article_info.
  by destruct (load_article_metadata _ st).
Qed.

Lemma get_article_info_wordCount filepath st :
  info_wordCount (fst (get_article_info filepath st))
  = let content := info_content (fst (get_article_info filepath st)) in
    if truthy content then count_words content else 0%Z.
Proof.
  rewrite get_article_info_content. unfold get_article_info.
  by destruct (load_article_metadata _ st).
Qed.



(** ** Retention of overlay records *)

Lemma keeps_records_ids st st' : keeps_records st st' -> keeps_ids st st'.
Proof. intros H k [m Hm]. exists m. by apply H. Qed.

Lemma keeps_ids_refl st : keeps_ids st st.
Proof. by intros k. Qed.

Lemma keeps_ids_trans st1 st2 st3 :
  keeps_ids st1 st2 -> keeps_ids st2 st3 -> keeps_ids st1 st3.
Proof. intros H12 H23 k Hk. by apply H23, H12. Qed.

Lemma keeps_records_trans st1 st2 st3 :
  keeps_records st1 st2 -> keeps_records st2 st3 -> keeps_records st1 st3.
Proof. intros H12 H23 k m Hk. by apply H23, H12. Qed.

Lemma load_article_metadata_keeps article_id st :
  keeps_records st (snd (load_article_metadata article_id st)).
Proof.
  intros k m Hk. rewrite load_article_metadata_overlay.
  destruct (decide (article_id = k)) as [->|Hne].
  - rewrite Hk. simpl. by rewrite lookup_insert_eq.
  - by rewrite lookup_insert_ne.
Qed.

Lemma save_article_metadata_keeps article_id m st :
  keeps_ids st (save_article_metadata article_id m st).
Proof.
  intros k Hk. unfold save_article_metadata. simpl.
  destruct (decide (article_id = k)) as [->|Hne].
  - rewrite lookup_insert_eq. eauto.
  - by rewrite lookup_insert_ne.
Qed.

Lemma get_article_info_keeps filepath st :
  keeps_records st (snd (get_article_info filepath st)).
Proof. rewrite get_article_info_snd. apply load_article_metadata_keeps. Qed.

Lemma list_articles_loop_keeps paths : forall st,
  keeps_records st (snd (list_articles_loop paths st)).
Proof.
  induction paths as [|p paths IH]; intros st; [by intros k m|].
  simpl. pose proof (get_article_info_keeps p st) as H1.
  destruct (get_article_info p st) as [info st1]. simpl in H1.
  specialize (IH st1). destruct (list_articles_loop paths st1) as [l st2].
  simpl in *. by eapply keeps_records_trans.
Qed.

Lemma list_articles_keeps st : keeps_records st (snd (list_articles st)).
Proof.
  unfold list_articles. destruct (drafts st); [|by intros k m].
  apply list_articles_loop_keeps.
Qed.

Lemma same_overlay_keeps st st' :
  article_metadata st' = article_metadata st -> keeps_ids st st'.
Proof. intros H k. by rewrite H. Qed.

Lemma save_article_keeps article_id title content s l d g st :
  keeps_ids st (snd (save_article article_id title content s l d g st)).
Proof.
  unfold save_article.
  set (st2 := match content with Some _ => _ | None => _ end).
  assert (keeps_ids st st2) as H2.
  { apply same_overlay_keeps. subst st2. by destruct content. }
  pose proof (load_article_metadata_keeps article_id st2) as H3.
  destruct (load_article_metadata article_id st2) as [m st3]. simpl in H3.
  eapply keeps_ids_trans; [exact H2|].
  eapply keeps_ids_trans; [by apply keeps_records_ids|].
  eapply keeps_ids_trans; [apply save_article_metadata_keeps|].
  apply keeps_records_ids, get_article_info_keeps.
Qed.

Lemma load_then_save_keeps article_id f st :
  keeps_ids st
    (save_article_metadata article_id
       (f (fst (load_article_metadata article_id st)))
       (snd (load_article_metadata article_id st))).
Proof.
  eapply keeps_ids_trans; [|apply save_article_metadata_keeps].
  apply keeps_records_ids, load_article_metadata_keeps.
Qed.

Lemma bulk_schedule_loop_keeps articles : forall currentDate n results st,
  keeps_ids st (snd (bulk_schedule_loop articles currentDate n results st)).
Proof.
  induction articles as [|a articles IH]; intros currentDate n results st;
    [apply keeps_ids_refl|].
  simpl.
  pose proof (load_then_save_keeps a
    (fun m => with_publishDate
                (Some (PyStr.take_chars 16 (PyDatetime.isoformat currentDate)))
                (with_status "scheduled" m)) st) as H1.
  destruct (load_article_metadata a st) as [m st1]. simpl in H1.
  destruct (PyDatetime.replace_day _ _); [|exact H1].
  eapply keeps_ids_trans; [exact H1|apply IH].
Qed.

Lemma handle_keeps r article_id st :
  r <> DeleteArticle article_id ->
  is_Some (article_metadata st !! article_id) ->
  is_Some (article_metadata (handle r st) !! article_id).
Proof.
  intros Hr. revert article_id Hr.
  change (forall article_id, r <> DeleteArticle article_id ->
            is_Some (article_metadata st !! article_id) ->
            is_Some (article_metadata (handle r st) !! article_id)).
  destruct r as [|i|i|i t c|i t c s l d g|i s d|i d|l d n|now|i];
    intros article_id Hr; simpl.
  - apply keeps_records_ids, list_articles_keeps.
  - unfold get_article_route, get_article.
    destruct (path_exists (filepath_of i) st); [|done].
    pose proof (get_article_info_keeps (filepath_of i) st) as H1.
    destruct (get_article_info (filepath_of i) st) as [info st1].
    by apply keeps_records_ids.
  - unfold get_status_route.
    pose proof (load_article_metadata_keeps i st) as H1.
    destruct (load_article_metadata i st) as [m st1].
    by apply keeps_records_ids.
  - unfold post_create. destruct (negb (opt_truthy i)); [done|].
    pose proof (save_article_keeps (default "" i)
      (Some (default "Untitled" t))
      (Some (default ("# " +:+ default "Untitled" t +:+ NL +:+ NL +:+ "Start writing...") c))
      (Some "draft") None None None st) as H1.
    destruct (save_article _ _ _ _ _ _ _ st) as [a st1]. exact (H1 _).
  - unfold post_update.
    pose proof (save_article_keeps i t c s l d g st) as H1.
    destruct (save_article i t c s l d g st) as [a st1]. exact (H1 _).
  - unfold post_status. destruct (negb (in_valid_statuses s)); [done|].
    pose proof (load_then_save_keeps i
      (fun m => if opt_truthy d
                then with_publishDate d (with_status (default "" s) m)
                else with_status (default "" s) m) st) as H1.
    destruct (load_article_metadata i st) as [m st1]. exact (H1 _).
  - unfold post_schedule.
    pose proof (load_then_save_keeps i
      (fun m => with_status "scheduled" (with_publishDate d m)) st) as H1.
    destruct (load_article_metadata i st) as [m st1]. exact (H1 _).
  - unfold post_bulk_schedule.
    destruct (bool_decide (l = []) || negb (opt_truthy d)); [done|].
    destruct (PyDatetime.fromisoformat _); [|done].
    apply bulk_schedule_loop_keeps.
  - unfold post_notifications.
    pose proof (list_articles_keeps st) as H1.
    destruct (list_articles st) as [l st1]. by apply keeps_records_ids.
  - unfold do_DELETE. destruct (path_exists (filepath_of i) st); [|done].
    simpl. intros Hk. rewrite lookup_delete_ne; [done|]. congruence.
Qed.

Lemma handle_all_keeps rs : forall article_id st,
  DeleteArticle article_id ∉ rs ->
  is_Some (article_metadata st !! article_id) ->
  is_Some (article_metadata (handle_all rs st) !! article_id).
Proof.
  induction rs as [|r rs IH]; intros article_id st Hrs Hst; [done|].
  unfold handle_all in *. simpl.
  apply not_elem_of_cons in Hrs as [Hr Hrs].
  apply IH; [done|]. apply handle_keeps; [congruence|done].
Qed.


(** * The claims *)

(** ** C9: retention of overlay records *)

(** C9. The first metadata read of an id synthesizes and stores the default
    record (status draft, no publish date, no sources, word goal 1000); a
    record that exists stays in the overlay across every sequence of requests
    (list, get, status read, create, update, status change, schedule, bulk
    schedule, notifications, and deletes of other ids) that holds no delete of
    that id. *)
Theorem overlay_retention (rs : list request) (article_id : string) (st : server) :
  DeleteArticle article_id ∉ rs ->
  (article_metadata st !! article_id = None ->
   load_article_metadata article_id st
   = (Metadata "draft" None [] 1000,
      Server (drafts st)
        (<[article_id := Metadata "draft" None [] 1000]> (article_metadata st))))
  /\ (is_Some (article_metadata st !! article_id) ->
      is_Some (article_metadata (handle_all rs st) !! article_id))
  /\ is_Some (article_metadata
                (handle_all rs (snd (load_article_metadata article_id st)))
              !! article_id).
Proof.
  intros Hrs. split; [|split].
  - intros Hnone. unfold load_article_metadata. by rewrite Hnone.
  - by apply handle_all_keeps.
  - apply handle_all_keeps; [done|].
    rewrite load_article_metadata_overlay, lookup_insert_eq. eauto.
Qed.

Lemma overlay_retention_witness :
  let st := Server None ∅ in
  let rs := [CreateArticle (Some "b") None None;
             SetStatus "a" (Some "review") None;
             BulkSchedule ["a"; "b"] (Some "2024-03-10T09:00") (Some 2%Z);
             ListArticles; DeleteArticle "b";
             ScheduleArticle "b" (Some "2024-03-12"); GetArticle "a"] in
  is_Some (article_metadata
             (handle_all rs (snd (load_article_metadata "a" st))) !! "a").
Proof.
  intros st rs.
  apply (overlay_retention rs "a" st).
  repeat (apply not_elem_of_cons; split; [discriminate|]).
  apply not_elem_of_nil.
Defined.

(** ** C2: deletion *)

(** C2, as stated, fails: for an id with a metadata record and no document
    the delete request reports that the article does not exist and the
    record stays in the overlay. *)
Lemma delete_keeps_orphan_record :
  fst (do_DELETE "ghost" orphan_record) = Failed 404 "Article not found"
  /\ article_metadata (snd (do_DELETE "ghost" orphan_record)) !! "ghost"
     = Some default_metadata.
Proof. split; reflexivity. Qed.

(** C2, amended. When the document file exists, delete removes it, evicts
    the metadata record (present or not) and reports success; when no
    document file exists, it reports "not found" and leaves files and overlay
    as they were, so a record without a document stays.  It never raises,
    and in both cases a following get of that id finds nothing. *)
Theorem delete_article_outcome (article_id : string) (st : server) :
  let r := fst (do_DELETE article_id st) in
  let st' := snd (do_DELETE article_id st) in
  (if path_exists (filepath_of article_id) st
   then r = Sent 200 "Article deleted"
        /\ files st' = delete (filepath_of article_id) (files st)
        /\ article_metadata st' = delete article_id (article_metadata st)
        /\ article_metadata st' !! article_id = None
   else r = Failed 404 "Article not found" /\ st' = st)
  /\ path_exists (filepath_of article_id) st' = false
  /\ get_article article_id st' = (None, st').
Proof.
  intros r st'. subst r st'. unfold do_DELETE.
  destruct (path_exists (filepath_of article_id) st) eqn:Hex; simpl.
  - assert (path_exists (filepath_of article_id)
              (Server (Some (delete (filepath_of article_id) (files st)))
                 (delete article_id (article_metadata st))) = false) as Hgone.
    { unfold path_exists, files. simpl. rewrite lookup_delete_eq.
      apply bool_decide_eq_false. by intros [? ?]. }
    repeat split; try done.
    + by rewrite lookup_delete_eq.
    + unfold get_article. by rewrite Hgone.
  - repeat split; try done. unfold get_article. by rewrite Hex.
Qed.

(** ** C3: the status change *)

(** C3. The status change fails with "Invalid status" exactly when the new
    status is not one of draft, review, scheduled, published (an absent status
    included), and then the server state is untouched; otherwise the record
    of the id (the default record if there was none) gets the new status,
    its publish date is replaced only by a non-empty supplied one, its other
    fields stay, and a publish date that was set is never cleared. *)
Theorem set_status_validates (article_id : string)
  (new_status new_publishDate : option string) (st : server) :
  let r := fst (post_status article_id new_status new_publishDate st) in
  let st' := snd (post_status article_id new_status new_publishDate st) in
  let old := default default_metadata (article_metadata st !! article_id) in
  let valid := exists s, new_status = Some s
                 /\ (s = "draft" \/ s = "review" \/ s = "scheduled"
                     \/ s = "published") in
  (r = Failed 400 "Invalid status" <-> ~ valid)
  /\ (~ valid -> st' = st)
  /\ (valid ->
      r = Sent 200 (new_status, new_publishDate)
      /\ drafts st' = drafts st
      /\ (forall k, k <> article_id ->
            article_metadata st' !! k = article_metadata st !! k)
      /\ exists m, article_metadata st' !! article_id = Some m
           /\ Some (status m) = new_status
           /\ publishDate m = (if opt_truthy new_publishDate
                               then new_publishDate else publishDate old)
           /\ sources m = sources old /\ wordGoal m = wordGoal old
           /\ (is_Some (publishDate old) -> is_Some (publishDate m))).
Proof.
  intros r st' old valid. subst r st'.
  assert (in_valid_statuses new_status = true <-> valid) as Hv.
  { subst valid. unfold in_valid_statuses. destruct new_status as [s|].
    - simpl. rewrite !orb_true_iff, !String.eqb_eq. split.
      + intros H. exists s. split; [done|]. intuition discriminate.
      + intros (s' & [= <-] & H). tauto.
    - split; [done|]. by intros (s & ? & _). }
  unfold post_status.
  destruct (in_valid_statuses new_status) eqn:Hin; simpl.
  - assert valid as Hvalid by (by apply Hv).
    pose proof (load_article_metadata_fst article_id st) as Hm.
    pose proof (load_article_metadata_drafts article_id st) as Hd.
    pose proof (load_article_metadata_overlay article_id st) as Ho.
    destruct (load_article_metadata article_id st) as [m st1].
    simpl in Hm, Hd, Ho. simpl.
    split; [split; [done|tauto]|]. split; [tauto|]. intros _.
    split; [done|]. split; [done|]. split.
    { intros k Hk. rewrite lookup_insert_ne by done.
      rewrite Ho. by rewrite lookup_insert_ne. }
    rewrite lookup_insert_eq. eexists. split; [done|].
    destruct Hvalid as (s & -> & _). fold old in Hm. subst m.
    destruct new_publishDate as [d|]; simpl.
    + destruct (truthy d); simpl; repeat split; eauto.
    + repeat split; eauto.
  - assert (~ valid) as Hinvalid by (rewrite <- Hv; congruence).
    split; [done|]. split; [done|]. tauto.
Qed.

(** ** C4 and C10: partial updates *)

Lemma save_article_result article_id title content s l d g st :
  let old := default default_metadata (article_metadata st !! article_id) in
  let st' := snd (save_article article_id title content s l d g st) in
  article_metadata st' !! article_id
  = Some (Metadata (default (status old) s)
            (match d with Some x => Some x | None => publishDate old end)
            (default (sources old) l) (default (wordGoal old) g))
  /\ files st'
     = match content with
       | None => files st
       | Some body =>
           <[filepath_of article_id :=
               if opt_truthy title
               then rewrite_title (default "" title) body else body]> (files st)
       end.
Proof.
  intros old st'. subst st'. unfold save_article.
  set (st2 := match content with Some _ => _ | None => _ end).
  assert (article_metadata st2 = article_metadata st) as Hmeta
    by (subst st2; by destruct content).
  assert (files st2
          = match content with
            | None => files st
            | Some body =>
                <[filepath_of article_id :=
                    if opt_truthy title
                    then rewrite_title (default "" title) body else body]>
                  (files st)
            end) as Hfiles by (subst st2; by destruct content).
  pose proof (load_article_metadata_fst article_id st2) as Hm.
  pose proof (load_article_metadata_drafts article_id st2) as Hd.
  destruct (load_article_metadata article_id st2) as [m st3].
  simpl in Hm, Hd. rewrite Hmeta in Hm. fold old in Hm.
  rewrite get_article_info_snd.
  set (m' := match g with Some _ => _ | None => _ end).
  split.
  - apply load_article_metadata_keeps. unfold save_article_metadata. simpl.
    rewrite lookup_insert_eq. f_equal. subst m' m.
    generalize old. intros [? ? ? ?]. by destruct s, l, d, g.
  - rewrite <- Hfiles. apply files_eq.
    rewrite load_article_metadata_drafts. simpl. exact Hd.
Qed.


(** C4. Saving applies every supplied field and leaves every omitted one:
    the record of the id afterwards is the previous record (the default
    record if there was none) with the supplied status, sources, publish date
    and word goal put in, unvalidated; the document file is written when a
    body is supplied (through the title rewrite when a non-empty title comes
    with it) and every file is untouched when the body is omitted.  So a
    save with status [s], any string, leaves the record with status [s]. *)
Theorem save_article_partial_update :
  (forall article_id title content s l d g st,
     let old := default default_metadata (article_metadata st !! article_id) in
     let st' := snd (save_article article_id title content s l d g st) in
     exists m, article_metadata st' !! article_id = Some m
       /\ status m = default (status old) s
       /\ sources m = default (sources old) l
       /\ publishDate m = match d with Some x => Some x | None => publishDate old end
       /\ wordGoal m = default (wordGoal old) g
       /\ match content with
          | None => files st' = files st
          | Some body =>
              files st' !! filepath_of article_id
              = Some (if opt_truthy title
                      then rewrite_title (default "" title) body else body)
              /\ forall p, p <> filepath_of article_id ->
                   files st' !! p = files st !! p
          end)
  /\ (forall article_id (s : string) title content l d g st,
        status <$> (article_metadata
                      (snd (save_article article_id title content (Some s) l d g st))
                    !! article_id) = Some s).
Proof.
  split.
  - intros article_id title content s l d g st old st'.
    destruct (save_article_result article_id title content s l d g st)
      as [Hm Hf].
    fold old st' in Hm, Hf. eexists. split; [exact Hm|]. simpl.
    repeat split; try done.
    destruct content as [body|]; [|done]. rewrite Hf. split.
    + by rewrite lookup_insert_eq.
    + intros p Hp. by rewrite lookup_insert_ne.
  - intros article_id s title content l d g st.
    destruct (save_article_result article_id title content (Some s) l d g st)
      as [Hm _].
    by rewrite Hm.
Qed.




(** ** C8: the word count *)

Lemma get_article_found article_id content st :
  files st !! filepath_of article_id = Some content ->
  exists view st', get_article article_id st = (Some view, st')
    /\ info_content view = PyStr.universal_newlines content
    /\ info_title view
       = (if truthy (PyStr.universal_newlines content)
          then extract_title (PyStr.universal_newlines content)
          else "Untitled")
    /\ info_wordCount view
       = (if truthy (PyStr.universal_newlines content)
          then count_words (PyStr.universal_newlines content) else 0%Z).
Proof.
  intros Hf. unfold get_article.
  assert (path_exists (filepath_of article_id) st = true) as Hex.
  { unfold path_exists. apply bool_decide_eq_true. rewrite Hf. eauto. }
  rewrite Hex.
  pose proof (get_article_info_content (filepath_of article_id) st) as Hc.
  pose proof (get_article_info_title (filepath_of article_id) st) as Ht.
  pose proof (get_article_info_wordCount (filepath_of article_id) st) as Hw.
  destruct (get_article_info (filepath_of article_id) st) as [view st'].
  simpl in Hc, Ht, Hw. rewrite Hex in Hc. unfold read_text in Hc.
  rewrite Hf in Hc. simpl in Hc. rewrite Hc in Ht, Hw.
  by exists view, st'.
Qed.

(** C8. The word count of a body is the number of its maximal
    whitespace-separated non-empty tokens, the tokens of heading lines
    included: [str.split] returns a tokenization in the specification's
    sense, every such tokenization has [count_words] many tokens, and the
    article view reports that count.  The body made of the line "# Hello", an
    empty line and the line "World" has the tokens "#", "Hello" and "World",
    so its word count is 3, and its title is "Hello". *)
Theorem count_words_counts_tokens :
  (forall body,
     Spec.tokens body (PyStr.split_whitespace body)
     /\ forall toks, Spec.tokens body toks ->
          count_words body = Z.of_nat (length toks))
  /\ (forall filepath st,
        let view := fst (get_article_info filepath st) in
        info_wordCount view = count_words (info_content view))
  /\ (let body := "# Hello" +:+ NL +:+ NL +:+ "World" in
      PyStr.split_whitespace body = ["#"; "Hello"; "World"]
      /\ count_words body = 3%Z
      /\ extract_title body = "Hello"
      /\ forall article_id st,
           files st !! filepath_of article_id = Some body ->
           exists view st', get_article article_id st = (Some view, st')
             /\ info_title view = "Hello" /\ info_wordCount view = 3%Z).
Proof.
  split; [|split].
  - intros body. split; [apply split_whitespace_tokens|].
    intros toks Htoks. unfold count_words.
    by rewrite (tokens_unique body toks Htoks).
  - intros filepath st view. subst view.
    rewrite get_article_info_wordCount. cbv zeta.
    by destruct (info_content _).
  - intros body. split; [reflexivity|]. split; [reflexivity|].
    split; [reflexivity|]. intros article_id st Hf.
    destruct (get_article_found article_id body st Hf)
      as (view & st' & Hg & _ & Ht & Hw).
    by exists view, st'.
Qed.

(** ** C7: the derived title *)

(** C7, as stated, fails: the code strips the whitespace around the text
    that follows the marker, and a line made of the marker alone is not a
    heading line for it. *)
Lemma derived_title_is_not_text_after_marker :
  (extract_title "#   Hello " = "Hello"
   /\ Spec.deriveTitle "#   Hello " = "  Hello ")
  /\ (extract_title ("# " +:+ NL +:+ "# Second") = "Second"
      /\ Spec.deriveTitle ("# " +:+ NL +:+ "# Second") = "").
Proof. repeat split; reflexivity. Qed.

(** C7, amended. The derived title is the text after the marker on the first
    line that starts with the marker and has at least one more character,
    with the whitespace at both ends stripped; later such lines do not count.
    It is Untitled when there is no such line, and for the empty body.  The
    article view reports this title. *)
Theorem extract_title_first_heading :
  (forall body,
     extract_title body
     = match List.find heading_line (PyStr.split PyStr.LF body) with
       | Some line => PyStr.strip (PyStr.drop_chars 2 line)
       | None => "Untitled"
       end)
  /\ extract_title "" = "Untitled"
  /\ (forall filepath st,
        let view := fst (get_article_info filepath st) in
        info_title view = extract_title (info_content view)).
Proof.
  split; [exact extract_title_lines|]. split; [reflexivity|].
  intros filepath st view. subst view.
  rewrite get_article_info_title. cbv zeta.
  by destruct (info_content _).
Qed.

(** ** C6: the title round trip *)

(** C6, as stated, fails: the title read back is stripped of the whitespace
    around it, an empty title is not applied at all, and of a title with a
    line feed, or with a carriage return (which the file read turns into a
    line feed), only the first line is read back. *)
Lemma title_round_trip_fails :
  round_trip_title " T1 " "text" = Some "T1"
  /\ round_trip_title "" "text" = Some "Untitled"
  /\ round_trip_title ("A" +:+ NL +:+ "B") "text" = Some "A"
  /\ round_trip_title ("A" +:+ String PyStr.CR "B") "text" = Some "A".
Proof. repeat split; vm_compute; reflexivity. Qed.

Lemma filter_not_h1 lines :
  Forall (fun line => PyStr.startswith "# " line = false)
    (List.filter (fun line => negb (PyStr.startswith "# " line)) lines).
Proof.
  apply Forall_forall. intros line Hin.
  apply list_elem_of_In, filter_In in Hin as [_ Hline].
  by apply negb_true_iff.
Qed.

Lemma universal_newlines_no_cr x y :
  no_char PyStr.CR x = true ->
  PyStr.universal_newlines (x +:+ y) = x +:+ PyStr.universal_newlines y.
Proof.
  unfold PyStr.universal_newlines.
  induction x as [|c x IH]; intros Hx; [reflexivity|].
  simpl in Hx. apply andb_true_iff in Hx as [Hc Hx].
  apply negb_true_iff in Hc.
  rewrite !str_app_cons. cbn [PyStr.universal_newlines_from].
  unfold PyStr.is_cr. rewrite Hc, andb_false_r. by rewrite IH.
Qed.

Lemma no_char_app c x y :
  no_char c x = true -> no_char c y = true -> no_char c (x +:+ y) = true.
Proof.
  intros Hx Hy. induction x as [|a x IH]; [done|].
  simpl in Hx. apply andb_true_iff in Hx as [Ha Hx].
  rewrite str_app_cons. simpl. by rewrite Ha, IH.
Qed.

Lemma extract_title_first_line title rest :
  title <> "" -> no_lf title = true ->
  extract_title ("# " +:+ title +:+ String PyStr.LF rest) = PyStr.strip title.
Proof.
  intros Hne Ht. unfold extract_title, PyStr.search_h1.
  change ("# " +:+ title +:+ String PyStr.LF rest)
    with (String "#" (String " " (title +:+ String PyStr.LF rest))).
  cbn [PyStr.search_h1_from]. unfold PyStr.match_h1_here.
  cbn [PyStr.startswith PyStr.drop_chars]. simpl Ascii.eqb. cbn [andb].
  rewrite line_rest_app by done.
  by destruct title.
Qed.

(** C6, amended. For a title [t] that is not empty and holds no line feed
    and no carriage return, a save of [t] with a body persists the line
    "# t", an empty line, and then the lines of the body that do not start
    with the marker, in their order; that first line is the only one
    starting with the marker.  A get of the id reads that text back (with
    universal newlines in what follows the two first lines) and reports the
    title [t] with the whitespace at its ends stripped, which is [t] itself
    when [t] has none. *)
Theorem save_title_round_trip (article_id t body : string)
  (s : option string) (l : option (list string)) (d : option string)
  (g : option Z) (st : server) :
  t <> "" -> no_lf t = true -> no_char PyStr.CR t = true ->
  let st' := snd (save_article article_id (Some t) (Some body) s l d g st) in
  let kept := List.filter (fun line => negb (PyStr.startswith "# " line))
                (PyStr.split PyStr.LF body) in
  let persisted := "# " +:+ t +:+ NL +:+ NL +:+ PyStr.join NL kept in
  let rest := PyStr.split PyStr.LF (PyStr.join NL kept) in
  files st' !! filepath_of article_id = Some persisted
  /\ PyStr.split PyStr.LF persisted = ("# " +:+ t) :: "" :: rest
  /\ rest = (if bool_decide (kept = []) then [""] else kept)
  /\ Forall (fun line => PyStr.startswith "# " line = false) rest
  /\ info_content <$> fst (get_article article_id st')
     = Some ("# " +:+ t +:+ NL +:+ NL
             +:+ PyStr.universal_newlines (PyStr.join NL kept))
  /\ info_title <$> fst (get_article article_id st') = Some (PyStr.strip t)
  /\ (PyStr.strip t = t ->
      info_title <$> fst (get_article article_id st') = Some t).
Proof.
  intros Hne Hlf Hcr st' kept persisted rest.
  assert (files st' !! filepath_of article_id = Some persisted) as Hfile.
  { destruct (save_article_result article_id (Some t) (Some body) s l d g st)
      as [_ Hf].
    fold st' in Hf. rewrite Hf, lookup_insert_eq. f_equal.
    unfold opt_truthy, truthy. simpl.
    destruct (String.eqb_spec t ""); [done|reflexivity]. }
  assert (rest = (if bool_decide (kept = []) then [""] else kept)) as Hrest.
  { subst rest. case_bool_decide as Hk; [by rewrite Hk|].
    apply split_join; [done|]. subst kept.
    apply Forall_forall. intros line Hin.
    apply list_elem_of_In, filter_In in Hin as [Hin _].
    pose proof (split_lines_no_lf body) as Hall.
    rewrite Forall_forall in Hall. by apply Hall, list_elem_of_In. }
  assert (PyStr.universal_newlines persisted
          = "# " +:+ t +:+ NL +:+ NL
            +:+ PyStr.universal_newlines (PyStr.join NL kept)) as Hread.
  { subst persisted.
    rewrite <- !(str_app_assoc _ _ (PyStr.join NL kept)).
    rewrite universal_newlines_no_cr; [by rewrite !str_app_assoc|].
    repeat apply no_char_app; done. }
  destruct (get_article_found article_id persisted st' Hfile)
    as (view & st'' & Hg & Hc & Ht & _).
  rewrite Hread in Hc, Ht.
  assert (info_title <$> fst (get_article article_id st')
          = Some (PyStr.strip t)) as Hget.
  { rewrite Hg. simpl. rewrite Ht. f_equal.
    change (truthy ("# " +:+ t +:+ NL +:+ NL
                    +:+ PyStr.universal_newlines (PyStr.join NL kept)))
      with true. cbv iota.
    by apply (extract_title_first_line t). }
  split; [exact Hfile|]. split; [by apply rewrite_title_lines|].
  split; [exact Hrest|]. split.
  { rewrite Hrest. case_bool_decide; [by repeat constructor|].
    apply filter_not_h1. }
  split; [by rewrite Hg; simpl; rewrite Hc|].
  split; [exact Hget|]. intros Hstrip. by rewrite Hget, Hstrip.
Qed.

Lemma save_title_round_trip_witness :
  let body := "# Old" +:+ NL +:+ "intro" +:+ NL +:+ "# Other" +:+ NL +:+ "more" in
  let st' := snd (save_article "post" (Some "T1") (Some body)
                    None None None None (Server None ∅)) in
  files st' !! filepath_of "post"
  = Some ("# T1" +:+ NL +:+ NL +:+ "intro" +:+ NL +:+ "more")
  /\ info_title <$> fst (get_article "post" st') = Some "T1".
Proof.
  intros body st'.
  pose proof (save_title_round_trip "post" "T1" body None None None None
                (Server None ∅) ltac:(discriminate) eq_refl eq_refl) as H.
  split; [exact (proj1 H)|].
  exact (proj2 (proj2 (proj2 (proj2 (proj2 (proj2 H))))) eq_refl).
Defined.


(** ** C5: reminders *)

(** [(a - b).days] is the whole-day difference, rounded down. *)
Lemma sub_days_floor a b :
  PyDatetime.sub_days a b
  = ((PyDatetime.timestamp_us a - PyDatetime.timestamp_us b)
     / PyDatetime.DAY_US)%Z.
Proof.
  unfold PyDatetime.sub_days, PyDatetime.timedelta_days,
    PyDatetime.timestamp_us, PyDatetime.DAY_US.
  set (D := (PyDatetime.toordinal a - PyDatetime.toordinal b)%Z).
  set (S := (PyDatetime.seconds_of_day a - PyDatetime.seconds_of_day b)%Z).
  set (U := (PyDatetime.microsecond a - PyDatetime.microsecond b)%Z).
  replace ((PyDatetime.toordinal a * 86400 + PyDatetime.seconds_of_day a)
           * 1000000 + PyDatetime.microsecond a
           - ((PyDatetime.toordinal b * 86400 + PyDatetime.seconds_of_day b)
              * 1000000 + PyDatetime.microsecond b))%Z
    with ((D * 86400 + S) * 1000000 + U)%Z by (subst D S U; lia).
  rewrite (Z.mul_comm 86400 1000000), <- Z.div_div by lia.
  rewrite Z.div_add_l by lia.
  replace (D * 86400 + S + U / 1000000)%Z
    with (D * 86400 + (S + U / 1000000))%Z by lia.
  by rewrite Z.div_add_l by lia.
Qed.

Lemma dates_parse_b_sound articles :
  dates_parse_b articles = true -> dates_parse articles.
Proof.
  unfold dates_parse_b, dates_parse. rewrite forallb_forall, Forall_forall.
  intros H a Ha Ht. specialize (H a (proj1 (list_elem_of_In _ _) Ha)).
  rewrite Ht in H. simpl in H.
  destruct (PyDatetime.fromisoformat _); [eauto|discriminate].
Qed.

Lemma notifications_loop_reminders now articles : forall acc,
  dates_parse articles ->
  notifications_loop articles now acc
  = Sent 200 (acc ++ concat (map (reminders_of now) articles)).
Proof.
  induction articles as [|a articles IH]; intros acc Hall.
  - simpl. by rewrite app_nil_r.
  - apply Forall_cons in Hall as [Ha Hall]. simpl.
    unfold reminders_of at 1.
    destruct (sum_publishDate a) as [date|] eqn:Hd; simpl in *; [|by apply IH].
    destruct (truthy date) eqn:Ht.
    + destruct (Ha eq_refl) as [p Hp]. rewrite Hp, sub_days_floor.
      destruct (_ =? 1)%Z; [rewrite IH by done; by rewrite <- app_assoc|].
      destruct (_ =? 7)%Z; [rewrite IH by done; by rewrite <- app_assoc|].
      by apply IH.
    + unfold truthy in Ht. apply negb_false_iff, String.eqb_eq in Ht as ->.
      by apply IH.
Qed.

(** C5, as stated, fails: the routes store any text as a publish date, and
    one listed article whose publish date is no date makes the scan raise at
    its [fromisoformat], so no reminder is sent at all, not even for the
    article that is due exactly one day after the clock. *)
Lemma reminder_silenced_by_bad_date :
  fst (post_notifications reminder_now silenced_store) = Raised ValueError
  /\ map (fun a => (sum_id a, sum_publishDate a))
       (fst (list_articles silenced_store))
     = [("day-after", Some "2024-03-12T09:30"); ("past", Some "next week");
        ("tomorrow", Some "2024-03-11T09:30"); ("undated", None);
        ("week", Some "2024-03-17T10:15")]
  /\ (d ← PyDatetime.fromisoformat "2024-03-11T09:30";
      Some (PyDatetime.sub_days d reminder_now)) = Some 1%Z.
Proof. repeat split; vm_compute; reflexivity. Qed.

(** C5, amended. When every non-empty publish date of a listed article is a
    valid naive date text (YYYY-MM-DD, alone or followed by one separator
    character and HH, HH:MM, HH:MM:SS or HH:MM:SS with 3 or 6 fraction
    digits), the notification scan answers with the reminders of the listed
    articles, in list order, where an article with a publish date owes exactly
    one "Publishing Tomorrow" reminder when the whole-day difference
    floor(publishDate - now) is 1, exactly one "Publishing in 1 Week" reminder
    when it is 7, and nothing for any other difference, a negative one
    included; the code's [(publishDate - now).days] is that floor.  One day
    ahead of now gives the difference 1, two days ahead the difference 2. *)
Theorem pending_reminders (now : PyDatetime.datetime) (st : server) :
  dates_parse (fst (list_articles st)) ->
  fst (post_notifications now st)
  = Sent 200 (concat (map (reminders_of now) (fst (list_articles st))))
  /\ forall a date p,
       sum_publishDate a = Some date ->
       PyDatetime.fromisoformat date = Some p ->
       let days := ((PyDatetime.timestamp_us p - PyDatetime.timestamp_us now)
                    / PyDatetime.DAY_US)%Z in
       PyDatetime.sub_days p now = days
       /\ (days = 1%Z ->
           reminders_of now a
           = [Notification "reminder" "Publishing Tomorrow" (sum_title a) date])
       /\ (days = 7%Z ->
           reminders_of now a
           = [Notification "reminder" "Publishing in 1 Week" (sum_title a) date])
       /\ (days <> 1%Z -> days <> 7%Z -> reminders_of now a = [])
       /\ (days < 0 -> reminders_of now a = [])%Z
       /\ (PyDatetime.timestamp_us p
           = PyDatetime.timestamp_us now + PyDatetime.DAY_US -> days = 1)%Z
       /\ (PyDatetime.timestamp_us p
           = PyDatetime.timestamp_us now + 2 * PyDatetime.DAY_US -> days = 2)%Z.
Proof.
  intros Hall. split.
  - unfold post_notifications.
    destruct (list_articles st) as [articles st']. simpl in *.
    by rewrite notifications_loop_reminders.
  - intros a date p Hd Hp days.
    assert (forall k, days = k ->
              reminders_of now a
              = if (k =? 1)%Z then
                  [Notification "reminder" "Publishing Tomorrow" (sum_title a) date]
                else if (k =? 7)%Z then
                  [Notification "reminder" "Publishing in 1 Week" (sum_title a) date]
                else []) as Hk.
    { intros k <-. unfold reminders_of. by rewrite Hd, Hp. }
    split; [apply sub_days_floor|].
    split; [intros H1; by rewrite (Hk 1%Z H1)|].
    split; [intros H7; by rewrite (Hk 7%Z H7)|].
    assert (days <> 1%Z -> days <> 7%Z -> reminders_of now a = []) as Hother.
    { intros H1 H7. rewrite (Hk days eq_refl).
      destruct (Z.eqb_spec days 1); [done|].
      by destruct (Z.eqb_spec days 7). }
    split; [exact Hother|].
    split; [intros Hneg; apply Hother; lia|].
    subst days. unfold PyDatetime.DAY_US. split; intros ->.
    + replace (PyDatetime.timestamp_us now + 86400 * 1000000
               - PyDatetime.timestamp_us now)%Z
        with (1 * (86400 * 1000000))%Z by lia.
      by rewrite Z.div_mul.
    + replace (PyDatetime.timestamp_us now + 2 * (86400 * 1000000)
               - PyDatetime.timestamp_us now)%Z
        with (2 * (86400 * 1000000))%Z by lia.
      by rewrite Z.div_mul.
Qed.

Lemma pending_reminders_witness :
  fst (post_notifications reminder_now reminder_store)
  = Sent 200
      [Notification "reminder" "Publishing Tomorrow" "tomorrow" "2024-03-11T09:30";
       Notification "reminder" "Publishing in 1 Week" "week" "2024-03-17T10:15"].
Proof.
  refine (eq_trans (proj1 (pending_reminders reminder_now reminder_store
                             (dates_parse_b_sound _ _))) _).
  - vm_compute. reflexivity.
  - vm_compute. reflexivity.
Defined.

(** ** C1: bulk scheduling *)

(** C1 fails on the code at a month end: the date is advanced with
    [replace(day=day + intervalDays)], which raises once the day leaves the
    month.  From 31 January with an interval of one day the first id is
    scheduled, the second never is, and no list is returned. *)
Theorem bulk_schedule_month_end_raises :
  let run := post_bulk_schedule ["a"; "b"] (Some "2024-01-31") (Some 1%Z)
               (Server None ∅) in
  fst run = Raised ValueError
  /\ article_metadata (snd run) !! "a"
     = Some (Metadata "scheduled" (Some "2024-01-31T00:00") [] 1000)
  /\ article_metadata (snd run) !! "b" = None.
Proof. repeat split; vm_compute; reflexivity. Qed.


(** *** Bulk scheduling inside one month *)

Lemma new_datetime_some y m d hh mm ss us dt :
  PyDatetime.new_datetime y m d hh mm ss us = Some dt ->
  dt = PyDatetime.Datetime y m d hh mm ss us /\ valid_datetime dt.
Proof.
  unfold PyDatetime.new_datetime, valid_datetime.
  destruct (_ && _) eqn:Hc; [|done]. intros [= <-]. by split.
Qed.

Lemma fromisoformat_valid s dt :
  PyDatetime.fromisoformat s = Some dt -> valid_datetime dt.
Proof.
  unfold PyDatetime.fromisoformat. intros H.
  repeat match type of H with
         | mbind _ ?x = Some _ =>
             destruct x as [[? ?]|] eqn:?; simpl in H; [|done]
         | mbind _ ?x = Some _ =>
             destruct x as [?|] eqn:?; simpl in H; [|done]
         | match ?x with _ => _ end = Some _ => destruct x; simpl in H
         end;
    by apply new_datetime_some in H as [_ H].
Qed.

Lemma replace_day_in_month dt d :
  valid_datetime dt ->
  (1 <= d <= PyDatetime.days_in_month (PyDatetime.year dt) (PyDatetime.month dt))%Z ->
  PyDatetime.replace_day dt d = Some (on_day dt d) /\ valid_datetime (on_day dt d).
Proof.
  unfold valid_datetime, PyDatetime.replace_day, PyDatetime.new_datetime, on_day.
  intros Hv Hd. simpl.
  apply andb_true_iff in Hv as [Hdate Htime]. rewrite Htime.
  assert (PyDatetime.check_date_fields (PyDatetime.year dt)
            (PyDatetime.month dt) d = true) as ->; [|done].
  unfold PyDatetime.check_date_fields in *.
  repeat (apply andb_true_iff in Hdate as [Hdate ?]).
  repeat (apply andb_true_iff; split); try done; lia.
Qed.

Lemma on_day_same dt : on_day dt (PyDatetime.day dt) = dt.
Proof. by destruct dt. Qed.

Lemma on_day_twice dt d d' : on_day (on_day dt d) d' = on_day dt d'.
Proof. reflexivity. Qed.

(** Moving inside the month moves the calendar date by as many days. *)
Lemma toordinal_on_day dt d :
  PyDatetime.toordinal (on_day dt d)
  = (PyDatetime.toordinal dt + (d - PyDatetime.day dt))%Z.
Proof. unfold PyDatetime.toordinal, PyDatetime.ymd2ord, on_day. simpl. lia. Qed.

Lemma bulk_schedule_loop_frame ids : forall cur n results st article_id,
  article_id ∉ ids ->
  article_metadata (snd (bulk_schedule_loop ids cur n results st)) !! article_id
  = article_metadata st !! article_id.
Proof.
  induction ids as [|a ids IH]; intros cur n results st article_id Hnot;
    [reflexivity|].
  apply not_elem_of_cons in Hnot as [Hne Hnot]. simpl.
  pose proof (load_article_metadata_overlay a st) as Ho.
  destruct (load_article_metadata a st) as [m st1]. simpl in Ho.
  set (st2 := save_article_metadata a _ st1).
  assert (article_metadata st2 !! article_id = article_metadata st !! article_id)
    as H2.
  { subst st2. unfold save_article_metadata. simpl.
    rewrite lookup_insert_ne by done. rewrite Ho.
    by rewrite lookup_insert_ne. }
  destruct (PyDatetime.replace_day _ _); [|exact H2].
  by rewrite IH.
Qed.

Lemma in_month_dates_cons cur n a ids :
  in_month_dates cur n (a :: ids)
  = (a, minute_text cur)
    :: in_month_dates (on_day cur (PyDatetime.day cur + n)) n ids.
Proof.
  unfold in_month_dates. rewrite imap_cons. f_equal.
  - simpl. by rewrite Z.add_0_r, on_day_same.
  - apply imap_ext. intros k x _. simpl. rewrite on_day_twice.
    do 3 f_equal. lia.
Qed.

Section WithinMonth.

Variable n : Z.

Lemma stays_in_month_step cur a ids :
  stays_in_month n cur (a :: ids) ->
  (1 <= PyDatetime.day cur + n
   <= PyDatetime.days_in_month (PyDatetime.year cur) (PyDatetime.month cur))%Z
  /\ stays_in_month n (on_day cur (PyDatetime.day cur + n)) ids.
Proof.
  intros H. split.
  - specialize (H 1%nat). simpl in H. lia.
  - intros k Hk. specialize (H (S k)). simpl in *. lia.
Qed.

Lemma bulk_schedule_loop_in_month ids : forall cur results st,
  valid_datetime cur -> stays_in_month n cur ids ->
  fst (bulk_schedule_loop ids cur n results st)
  = Sent 200 (results ++ in_month_dates cur n ids).
Proof.
  induction ids as [|a ids IH]; intros cur results st Hv Hin.
  - simpl. by rewrite app_nil_r.
  - apply stays_in_month_step in Hin as [Hday Hin].
    destruct (replace_day_in_month cur _ Hv Hday) as [Hr Hv'].
    simpl. destruct (load_article_metadata a st) as [m st1].
    rewrite Hr, IH by done.
    by rewrite in_month_dates_cons, <- app_assoc.
Qed.

Lemma bulk_schedule_loop_records ids : forall cur results st,
  valid_datetime cur -> stays_in_month n cur ids -> NoDup ids ->
  forall (k : nat) article_id, ids !! k = Some article_id ->
    article_metadata (snd (bulk_schedule_loop ids cur n results st)) !! article_id
    = Some (with_publishDate
              (Some (minute_text
                       (on_day cur (PyDatetime.day cur + Z.of_nat k * n))))
              (with_status "scheduled"
                 (default default_metadata (article_metadata st !! article_id)))).
Proof.
  induction ids as [|a ids IH]; intros cur results st Hv Hin Hnd k article_id Hk;
    [done|].
  apply stays_in_month_step in Hin as [Hday Hin].
  destruct (replace_day_in_month cur _ Hv Hday) as [Hr Hv'].
  apply NoDup_cons in Hnd as [Ha Hnd]. simpl.
  pose proof (load_article_metadata_fst a st) as Hm.
  pose proof (load_article_metadata_overlay a st) as Ho.
  destruct (load_article_metadata a st) as [m st1]. simpl in Hm, Ho.
  rewrite Hr. destruct k as [|k]; simpl in Hk.
  - injection Hk as <-. rewrite bulk_schedule_loop_frame by done.
    unfold save_article_metadata. simpl. rewrite lookup_insert_eq.
    by rewrite Hm, Z.add_0_r, on_day_same.
  - assert (article_id <> a) as Hne.
    { intros ->. apply Ha. by eapply list_elem_of_lookup_2. }
    rewrite (IH _ _ _ Hv' Hin Hnd k article_id Hk).
    unfold save_article_metadata. simpl.
    rewrite lookup_insert_ne by done. rewrite Ho.
    rewrite lookup_insert_ne by done. rewrite on_day_twice.
    replace (PyDatetime.day cur + n + Z.of_nat k * n)%Z
      with (PyDatetime.day cur + Z.of_nat (S k) * n)%Z by lia.
    reflexivity.
Qed.

End WithinMonth.

(** X1. What bulk scheduling does while the walk stays inside the month of the
    start date: one pair per id in input order, the k-th id dated k times the
    interval after the start (cut to the minute), and, for ids without
    repetition, every listed record scheduled on its date with its other
    fields kept. *)
Theorem bulk_schedule_within_month (ids : list string) (startDate : string)
  (n : Z) (start : PyDatetime.datetime) (st : server) :
  ids <> [] ->
  PyDatetime.fromisoformat startDate = Some start ->
  stays_in_month n start ids ->
  let run := post_bulk_schedule ids (Some startDate) (Some n) st in
  fst run = Sent 200 (in_month_dates start n ids)
  /\ (forall k : nat,
        PyDatetime.toordinal
          (on_day start (PyDatetime.day start + Z.of_nat k * n))
        = (PyDatetime.toordinal start + Z.of_nat k * n)%Z)
  /\ (NoDup ids ->
      forall (k : nat) article_id, ids !! k = Some article_id ->
        article_metadata (snd run) !! article_id
        = Some (with_publishDate
                  (Some (minute_text
                           (on_day start
                              (PyDatetime.day start + Z.of_nat k * n))))
                  (with_status "scheduled"
                     (default default_metadata
                        (article_metadata st !! article_id))))).
Proof.
  intros Hne Hparse Hin run. subst run. unfold post_bulk_schedule.
  assert (bool_decide (ids = []) = false) as -> by by apply bool_decide_eq_false.
  assert (opt_truthy (Some startDate) = true) as ->.
  { simpl. unfold truthy. destruct (String.eqb_spec startDate ""); [|done].
    subst. discriminate. }
  simpl. rewrite Hparse.
  pose proof (fromisoformat_valid _ _ Hparse) as Hv.
  split; [by rewrite bulk_schedule_loop_in_month|].
  split; [intros k; rewrite toordinal_on_day; lia|].
  intros Hnd k article_id Hk.
  by apply bulk_schedule_loop_records.
Qed.

(** * Further properties of the code *)

(** ** Status changes and scheduling (lines 271-305) *)

Lemma server_eq st st' :
  drafts st' = drafts st -> article_metadata st' = article_metadata st ->
  st' = st.
Proof. destruct st, st'. simpl. by intros -> ->. Qed.

Lemma load_then_save_state article_id f st :
  let '(m, st1) := load_article_metadata article_id st in
  save_article_metadata article_id (f m) st1
  = Server (drafts st)
      (<[article_id := f (effective_metadata article_id st)]>
         (article_metadata st)).
Proof.
  pose proof (load_article_metadata_fst article_id st) as Hm.
  pose proof (load_article_metadata_drafts article_id st) as Hd.
  pose proof (load_article_metadata_overlay article_id st) as Ho.
  destruct (load_article_metadata article_id st) as [m st1].
  simpl in *. unfold save_article_metadata, effective_metadata.
  rewrite Hd, Ho, Hm. by rewrite insert_insert_eq.
Qed.

Lemma effective_metadata_insert article_id m k st d :
  effective_metadata k (Server d (<[article_id := m]> (article_metadata st)))
  = if decide (article_id = k) then m else effective_metadata k st.
Proof.
  unfold effective_metadata. simpl. rewrite lookup_insert.
  by case_decide.
Qed.

(** X6. A status change applied twice in a row answers the same and leaves the
    state the first one left. *)
Theorem set_status_idempotent (article_id : string)
  (new_status new_publishDate : option string) (st : server) :
  let once := post_status article_id new_status new_publishDate st in
  post_status article_id new_status new_publishDate (snd once) = once.
Proof.
  unfold post_status.
  destruct (negb (in_valid_statuses new_status)); [reflexivity|].
  pose proof (load_then_save_state article_id
    (fun m => if opt_truthy new_publishDate
              then with_publishDate new_publishDate
                     (with_status (default "" new_status) m)
              else with_status (default "" new_status) m) st) as H1.
  destruct (load_article_metadata article_id st) as [m st1].
  cbv zeta. simpl snd. rewrite H1. clear H1.
  set (m1 := if opt_truthy new_publishDate then _ else _).
  set (st2 := Server _ _).
  pose proof (load_then_save_state article_id
    (fun m => if opt_truthy new_publishDate
              then with_publishDate new_publishDate
                     (with_status (default "" new_status) m)
              else with_status (default "" new_status) m) st2) as H2.
  destruct (load_article_metadata article_id st2) as [m' st3].
  rewrite H2. f_equal. subst st2. simpl.
  rewrite effective_metadata_insert, decide_True by done.
  rewrite insert_insert_eq. do 2 f_equal.
  subst m1. by destruct (opt_truthy new_publishDate).
Qed.

(** X7. The schedule route never fails and asks for no document: the record of
    the id becomes "scheduled" with exactly the given publish date, an absent
    one included, so an earlier date is cleared; sources and word goal stay,
    as do all files and all other records.  With a non-empty date it leaves
    the state that the status change to "scheduled" with that date leaves. *)
Theorem schedule_sets_date_unconditionally (article_id : string)
  (new_publishDate : option string) (st : server) :
  let run := post_schedule article_id new_publishDate st in
  fst run = Sent 200 new_publishDate
  /\ article_metadata (snd run) !! article_id
     = Some (scheduled_on new_publishDate (effective_metadata article_id st))
  /\ (forall k, k <> article_id ->
        article_metadata (snd run) !! k = article_metadata st !! k)
  /\ drafts (snd run) = drafts st
  /\ (opt_truthy new_publishDate = true ->
      snd run
      = snd (post_status article_id (Some "scheduled") new_publishDate st)).
Proof.
  unfold post_schedule, post_status.
  change (negb (in_valid_statuses (Some "scheduled"))) with false. cbv iota.
  pose proof (load_then_save_state article_id
    (fun m => with_status "scheduled" (with_publishDate new_publishDate m)) st)
    as H1.
  pose proof (load_then_save_state article_id
    (fun m => if opt_truthy new_publishDate
              then with_publishDate new_publishDate
                     (with_status (default "" (Some "scheduled")) m)
              else with_status (default "" (Some "scheduled")) m) st) as H2.
  destruct (load_article_metadata article_id st) as [m st1].
  cbv zeta. simpl fst. simpl snd. rewrite H1.
  split; [reflexivity|]. split; [simpl; by rewrite lookup_insert_eq|].
  split; [intros k Hk; simpl; by rewrite lookup_insert_ne|].
  split; [reflexivity|].
  intros Ht. simpl in H2. rewrite H2, Ht. reflexivity.
Qed.

(** ** Reading back what was saved (lines 59-148) *)

Lemma get_article_info_idem filepath st :
  get_article_info filepath (snd (get_article_info filepath st))
  = get_article_info filepath st.
Proof.
  unfold get_article_info.
  set (i := PyStr.remove_all ".md" filepath).
  pose proof (load_article_metadata_fst i st) as Hm.
  pose proof (load_article_metadata_drafts i st) as Hd.
  pose proof (load_article_metadata_overlay i st) as Ho.
  destruct (load_article_metadata i st) as [m st1]. simpl in *.
  assert (article_metadata st1 !! i = Some m) as Hl
    by (by rewrite Ho, lookup_insert_eq, Hm).
  rewrite (load_article_metadata_present i m st1 Hl).
  assert (files st1 = files st) as Hf by (by apply files_eq).
  unfold read_text. by rewrite (path_exists_eq _ _ _ Hf), Hf.
Qed.

Lemma save_then_get article_id title content s l d g st :
  is_Some content \/ path_exists (filepath_of article_id) st = true ->
  let saved := save_article article_id title content s l d g st in
  get_article article_id (snd saved) = (Some (fst saved), snd saved).
Proof.
  intros Hdoc saved.
  assert (path_exists (filepath_of article_id) (snd saved) = true) as Hex.
  { destruct (save_article_result article_id title content s l d g st)
      as [_ Hf].
    unfold path_exists. fold saved in Hf. rewrite Hf.
    destruct content as [body|].
    - apply bool_decide_eq_true. rewrite lookup_insert_eq. eauto.
    - by destruct Hdoc as [[? ?]|Hex]. }
  unfold get_article. rewrite Hex.
  subst saved. unfold save_article in *.
  destruct (load_article_metadata article_id _) as [m st3].
  rewrite get_article_info_idem.
  by destruct (get_article_info _ _).
Qed.

(** X9. Whenever the document exists after a save (a body was supplied, or the
    file was there before), the article the save returns is the one a
    following get returns, and that get changes nothing. *)
Theorem save_returns_what_get_returns (article_id : string)
  (title content s : option string) (l : option (list string))
  (d : option string) (g : option Z) (st : server) :
  is_Some content \/ path_exists (filepath_of article_id) st = true ->
  let saved := save_article article_id title content s l d g st in
  get_article article_id (snd saved) = (Some (fst saved), snd saved).
Proof. apply save_then_get. Qed.

Lemma save_returns_what_get_returns_witness :
  let saved := save_article "essay" (Some "On Proof") (Some "body text")
                 (Some "review") None None None (Server None ∅) in
  get_article "essay" (snd saved) = (Some (fst saved), snd saved).
Proof.
  exact (save_returns_what_get_returns "essay" (Some "On Proof")
           (Some "body text") (Some "review") None None None (Server None ∅)
           (or_introl (ex_intro _ "body text" eq_refl))).
Defined.


(** ** Requests that only read (lines 83-112, 187-208, 377-403) *)

Lemma same_content_refl st : same_content st st.
Proof. by split. Qed.

Lemma same_content_trans st1 st2 st3 :
  same_content st1 st2 -> same_content st2 st3 -> same_content st1 st3.
Proof.
  intros [Hf1 He1] [Hf2 He2]. split; [congruence|].
  intros k. by rewrite He2, He1.
Qed.

Lemma load_article_metadata_same_content article_id st :
  same_content st (snd (load_article_metadata article_id st)).
Proof.
  split.
  - apply files_eq, load_article_metadata_drafts.
  - intros k. unfold effective_metadata.
    rewrite load_article_metadata_overlay, lookup_insert.
    case_decide as Hk; [by subst|done].
Qed.

Lemma get_article_info_same_content filepath st :
  same_content st (snd (get_article_info filepath st)).
Proof.
  rewrite get_article_info_snd. apply load_article_metadata_same_content.
Qed.

Lemma list_articles_loop_same_content paths : forall st,
  same_content st (snd (list_articles_loop paths st)).
Proof.
  induction paths as [|p paths IH]; intros st; [apply same_content_refl|].
  simpl. pose proof (get_article_info_same_content p st) as H1.
  destruct (get_article_info p st) as [info st1]. simpl in H1.
  specialize (IH st1). destruct (list_articles_loop paths st1) as [l st2].
  simpl in *. by eapply same_content_trans.
Qed.

Lemma list_articles_same_content st :
  same_content st (snd (list_articles st)).
Proof.
  unfold list_articles. destruct (drafts st); [|apply same_content_refl].
  apply list_articles_loop_same_content.
Qed.

Lemma handle_read_only r st :
  read_only r = true -> same_content st (handle r st).
Proof.
  destruct r; try discriminate; intros _; simpl.
  - apply list_articles_same_content.
  - unfold get_article_route, get_article.
    destruct (path_exists _ st); [|apply same_content_refl].
    pose proof (get_article_info_same_content (filepath_of article_id) st) as H.
    by destruct (get_article_info _ st).
  - unfold get_status_route.
    pose proof (load_article_metadata_same_content article_id st) as H.
    by destruct (load_article_metadata article_id st).
  - unfold post_notifications.
    pose proof (list_articles_same_content st) as H.
    by destruct (list_articles st).
Qed.

(** X10. Listing, getting an article, reading a status and scanning for
    reminders change no file and no article's effective metadata: the default
    records they store are the defaults every reader would have seen anyway. *)
Theorem reads_change_nothing (rs : list request) (st : server) :
  Forall (fun r => read_only r = true) rs ->
  files (handle_all rs st) = files st
  /\ forall article_id,
       effective_metadata article_id (handle_all rs st)
       = effective_metadata article_id st.
Proof.
  intros Hrs. change (same_content st (handle_all rs st)).
  revert st. induction Hrs as [|r rs Hr _ IH]; intros st;
    [apply same_content_refl|].
  unfold handle_all in *. simpl.
  eapply same_content_trans; [by apply handle_read_only|apply IH].
Qed.

Lemma reads_change_nothing_witness :
  let rs := [ListArticles; GetArticle "week"; GetStatus "unsaved";
             Notifications reminder_now; GetArticle "unsaved"] in
  files (handle_all rs reminder_store) = files reminder_store
  /\ forall article_id,
       effective_metadata article_id (handle_all rs reminder_store)
       = effective_metadata article_id reminder_store.
Proof.
  intros rs. apply (reads_change_nothing rs reminder_store).
  repeat constructor.
Defined.

(** ** Deleting (lines 411-429) *)

Lemma do_DELETE_existing article_id st :
  path_exists (filepath_of article_id) st = true ->
  let st' := snd (do_DELETE article_id st) in
  files st' = delete (filepath_of article_id) (files st)
  /\ article_metadata st' = delete article_id (article_metadata st).
Proof. intros Hex. unfold do_DELETE. by rewrite Hex. Qed.

Lemma do_DELETE_gone article_id st :
  path_exists (filepath_of article_id) (snd (do_DELETE article_id st)) = false.
Proof.
  unfold do_DELETE.
  destruct (path_exists (filepath_of article_id) st) eqn:Hex; [|done].
  unfold path_exists, files. simpl. rewrite lookup_delete_eq.
  apply bool_decide_eq_false. by intros [? ?].
Qed.

(** X15. Deleting an article with a document forgets its workflow metadata: the
    id reads as a draft with the default record again, and a second delete
    answers "not found" and changes nothing. *)
Theorem delete_forgets_metadata (article_id : string) (st : server) :
  path_exists (filepath_of article_id) st = true ->
  let st' := snd (do_DELETE article_id st) in
  effective_metadata article_id st' = default_metadata
  /\ fst (get_status_route article_id st') = Sent 200 "draft"
  /\ do_DELETE article_id st' = (Failed 404 "Article not found", st')
  /\ (forall k, k <> article_id ->
        article_metadata st' !! k = article_metadata st !! k)
  /\ (forall p, p <> filepath_of article_id -> files st' !! p = files st !! p).
Proof.
  intros Hex st'.
  destruct (do_DELETE_existing article_id st Hex) as [Hf Ho].
  pose proof (do_DELETE_gone article_id st) as Hgone.
  fold st' in Hf, Ho, Hgone.
  assert (effective_metadata article_id st' = default_metadata) as He
    by (unfold effective_metadata; by rewrite Ho, lookup_delete_eq).
  split; [exact He|]. split.
  { unfold get_status_route.
    pose proof (load_article_metadata_fst article_id st') as Hm.
    destruct (load_article_metadata article_id st') as [m st1].
    simpl in *. fold (effective_metadata article_id st') in Hm.
    by rewrite Hm, He. }
  split; [unfold do_DELETE; by rewrite Hgone|].
  split.
  - intros k Hk. by rewrite Ho, lookup_delete_ne.
  - intros p Hp. by rewrite Hf, lookup_delete_ne.
Qed.

Lemma delete_forgets_metadata_witness :
  let st' := snd (do_DELETE "week" reminder_store) in
  effective_metadata "week" st' = default_metadata
  /\ fst (get_status_route "week" st') = Sent 200 "draft"
  /\ do_DELETE "week" st' = (Failed 404 "Article not found", st')
  /\ (forall k, k <> "week" ->
        article_metadata st' !! k = article_metadata reminder_store !! k)
  /\ (forall p, p <> filepath_of "week" ->
        files st' !! p = files reminder_store !! p).
Proof.
  apply (delete_forgets_metadata "week" reminder_store).
  vm_compute. reflexivity.
Defined.

(** ** Creating (lines 241-252) *)



(** ** The article view and the id it reports (lines 59-80) *)

Lemma get_article_info_view filepath st :
  let view := fst (get_article_info filepath st) in
  let record := effective_metadata (PyStr.remove_all ".md" filepath) st in
  info_id view = PyStr.remove_all ".md" filepath
  /\ info_filename view = filepath
  /\ info_status view = status record
  /\ info_publishDate view = publishDate record
  /\ info_sources view = sources record
  /\ info_wordGoal view = wordGoal record.
Proof.
  unfold get_article_info, effective_metadata.
  pose proof (load_article_metadata_fst (PyStr.remove_all ".md" filepath) st)
    as Hm.
  destruct (load_article_metadata _ st) as [m st1]. simpl in *.
  by rewrite Hm.
Qed.

Lemma startswith_md_app c u :
  PyStr.startswith ".md" (String c u) = false ->
  PyStr.startswith ".md" (String c u +:+ ".md") = false.
Proof.
  rewrite str_app_cons. simpl.
  destruct (Ascii.eqb_spec "." c) as [<-|]; [|done]. simpl.
  destruct u as [|c2 u]; [done|]. rewrite str_app_cons. simpl.
  destruct (Ascii.eqb_spec "m" c2) as [<-|]; [|done]. simpl.
  destruct u as [|c3 u]; [done|]. rewrite str_app_cons. simpl.
  by destruct (Ascii.eqb_spec "d" c3).
Qed.

(** The stem of a file name is found again when the id holds no ".md". *)
Lemma remove_all_md_filepath article_id :
  occurs ".md" article_id = false ->
  PyStr.remove_all ".md" (filepath_of article_id) = article_id.
Proof.
  unfold PyStr.remove_all, filepath_of.
  induction article_id as [|c u IH]; intros Hocc; [reflexivity|].
  cbn [occurs] in Hocc. apply orb_false_iff in Hocc as [Hstart Hocc].
  pose proof (startswith_md_app c u Hstart) as Happ.
  rewrite str_app_cons in *. cbn [PyStr.remove_from].
  rewrite Happ. f_equal. by apply IH.
Qed.

(** X12. For an id that holds no ".md", a get of an existing document reports the
    id itself, the text of the file read with universal newlines, and the
    effective metadata of that id (its record, or the defaults). *)
Theorem get_reports_own_record (article_id content : string) (st : server) :
  occurs ".md" article_id = false ->
  files st !! filepath_of article_id = Some content ->
  exists view st',
    get_article article_id st = (Some view, st')
    /\ info_id view = article_id
    /\ info_filename view = filepath_of article_id
    /\ info_content view = PyStr.universal_newlines content
    /\ Metadata (info_status view) (info_publishDate view) (info_sources view)
         (info_wordGoal view)
       = effective_metadata article_id st.
Proof.
  intros Hocc Hfile.
  destruct (get_article_found article_id content st Hfile)
    as (view & st' & Hg & Hc & _).
  exists view, st'. split; [exact Hg|].
  pose proof (get_article_info_view (filepath_of article_id) st) as Hv.
  cbv zeta in Hv. rewrite (remove_all_md_filepath _ Hocc) in Hv.
  unfold get_article in Hg.
  destruct (path_exists _ st); [|done].
  destruct (get_article_info _ st) as [view' st'']. simpl in Hv.
  injection Hg as -> ->.
  destruct Hv as (Hi & Hn & Hs & Hp & Hso & Hw).
  repeat split; try done.
  rewrite Hs, Hp, Hso, Hw. by destruct (effective_metadata article_id st).
Qed.

Lemma get_reports_own_record_witness :
  exists view st',
    get_article "week" reminder_store = (Some view, st')
    /\ info_id view = "week"
    /\ info_filename view = filepath_of "week"
    /\ info_content view = "# week" +:+ NL +:+ NL +:+ "text"
    /\ Metadata (info_status view) (info_publishDate view) (info_sources view)
         (info_wordGoal view)
       = effective_metadata "week" reminder_store.
Proof.
  apply (get_reports_own_record "week" ("# week" +:+ NL +:+ NL +:+ "text")
           reminder_store).
  - reflexivity.
  - vm_compute. reflexivity.
Defined.

(** An id that holds ".md" is read back under another id's record. *)
Example get_reports_other_record :
  let st := snd (save_article "notes.md" None (Some "text") (Some "review")
                   None None None (Server None ∅)) in
  (info_id <$> fst (get_article "notes.md" st) = Some "notes")
  /\ (info_status <$> fst (get_article "notes.md" st) = Some "draft")
  /\ (status <$> article_metadata st !! "notes.md" = Some "review").
Proof. repeat split; vm_compute; reflexivity. Qed.

(** ** Listing (lines 83-104) *)

Lemma endswith_app s p : PyStr.endswith p (s +:+ p) = true.
Proof.
  unfold PyStr.endswith.
  assert (forall a b, String.length (a +:+ b)
                      = (String.length a + String.length b)%nat) as Hlen.
  { induction a as [|c a IH]; intros b; [done|].
    rewrite str_app_cons. simpl. by rewrite IH. }
  rewrite Hlen. apply andb_true_iff. split; [apply Nat.leb_le; lia|].
  replace (String.length s + String.length p - String.length p)%nat
    with (String.length s) by lia.
  apply String.eqb_eq. induction s as [|c s IH]; [by destruct p|].
  by rewrite str_app_cons.
Qed.

Lemma glob_md_elem_of fs name :
  name ∈ glob_md fs
  <-> is_Some (fs !! name) /\ PyStr.endswith ".md" name = true.
Proof.
  unfold glob_md. rewrite merge_sort_Permutation.
  rewrite list_elem_of_In, filter_In, <- list_elem_of_In.
  by rewrite elem_of_elements, elem_of_dom.
Qed.

Lemma glob_md_sorted fs : Sorted String.le (glob_md fs).
Proof. apply Sorted_merge_sort. apply _. Qed.

Lemma glob_md_NoDup fs : NoDup (glob_md fs).
Proof.
  unfold glob_md. rewrite merge_sort_Permutation.
  apply NoDup_ListNoDup, List.NoDup_filter, NoDup_ListNoDup, NoDup_elements.
Qed.

Lemma list_articles_loop_views paths : forall st,
  Forall2 (fun p s => s = summary_of (fst (get_article_info p st)))
    paths (fst (list_articles_loop paths st)).
Proof.
  induction paths as [|p paths IH]; intros st; [constructor|].
  simpl. pose proof (get_article_info_same_content p st) as Hsame.
  destruct (get_article_info p st) as [info st1] eqn:Hp. simpl in Hsame.
  specialize (IH st1).
  destruct (list_articles_loop paths st1) as [l st2]. simpl in *.
  constructor; [by rewrite Hp|].
  eapply Forall2_impl; [exact IH|]. intros q s ->. simpl. f_equal.
  destruct Hsame as [Hf He].
  unfold get_article_info.
  pose proof (load_article_metadata_fst (PyStr.remove_all ".md" q) st1) as H1.
  pose proof (load_article_metadata_fst (PyStr.remove_all ".md" q) st) as H0.
  destruct (load_article_metadata _ st1) as [m1 ?].
  destruct (load_article_metadata _ st) as [m0 ?]. simpl in *.
  fold (effective_metadata (PyStr.remove_all ".md" q) st1) in H1.
  fold (effective_metadata (PyStr.remove_all ".md" q) st) in H0.
  rewrite He in H1. subst m1 m0.
  unfold read_text. by rewrite (path_exists_eq _ _ _ Hf), Hf.
Qed.

(** X11. The list holds one summary for every file of the directory whose name
    ends in ".md", and for no other file, in ascending order of the file
    names; it is empty when the directory is missing.  Every summary is the
    view of its file in the state before the listing: title and word count
    derived from the file text, metadata from the effective record of the
    reported id. *)
Theorem list_articles_lists_md_files (st : server) :
  let listed := fst (list_articles st) in
  map sum_filename listed = glob_md (files st)
  /\ Sorted String.le (map sum_filename listed)
  /\ NoDup (map sum_filename listed)
  /\ (forall name, name ∈ map sum_filename listed
        <-> is_Some (files st !! name) /\ PyStr.endswith ".md" name = true)
  /\ (drafts st = None -> listed = [])
  /\ Forall (fun s =>
       let content := read_text (sum_filename s) st in
       let record :=
         effective_metadata (PyStr.remove_all ".md" (sum_filename s)) st in
       sum_id s = PyStr.remove_all ".md" (sum_filename s)
       /\ sum_title s
          = (if truthy content then extract_title content else "Untitled")
       /\ sum_wordCount s
          = (if truthy content then count_words content else 0%Z)
       /\ sum_status s = status record
       /\ sum_publishDate s = publishDate record
       /\ sum_wordGoal s = wordGoal record) listed.
Proof.
  intros listed.
  assert (Forall2 (fun p s => s = summary_of (fst (get_article_info p st)))
            (glob_md (files st)) listed) as Hviews.
  { subst listed. unfold list_articles, files.
    destruct (drafts st) as [fs|]; simpl; [apply list_articles_loop_views|].
    unfold glob_md. rewrite dom_empty_L, elements_empty. constructor. }
  assert (map sum_filename listed = glob_md (files st)) as Hnames.
  { clear -Hviews. induction Hviews as [|p s ps ss Hs _ IH]; [done|].
    simpl. rewrite IH. f_equal. subst s. simpl.
    apply (get_article_info_view p st). }
  split; [exact Hnames|]. rewrite Hnames.
  split; [apply glob_md_sorted|]. split; [apply glob_md_NoDup|].
  split; [apply glob_md_elem_of|].
  split; [intros Hd; subst listed; unfold list_articles; by rewrite Hd|].
  assert (forall p, p ∈ glob_md (files st) -> path_exists p st = true) as Hex.
  { intros p Hp. apply glob_md_elem_of in Hp as [Hp _].
    unfold path_exists. by apply bool_decide_eq_true. }
  clear Hnames. induction Hviews as [|p s ps ss Hs _ IH]; [constructor|].
  constructor.
  - subst s. cbv zeta.
    pose proof (get_article_info_view p st) as Hv.
    pose proof (get_article_info_title p st) as Ht.
    pose proof (get_article_info_wordCount p st) as Hw.
    pose proof (get_article_info_content p st) as Hc.
    cbv zeta in Hv, Ht, Hw. rewrite Hc in Ht, Hw.
    rewrite (Hex p) in Ht, Hw by (by left).
    destruct Hv as (Hi & Hn & Hs & Hp & _ & Hg).
    unfold summary_of. simpl. rewrite Hn.
    by rewrite Hi, Ht, Hw, Hs, Hp, Hg.
  - apply IH. intros q Hq. apply Hex. by right.
Qed.




(** ** The title rewrite, repeated (lines 125-132) *)

Lemma kept_lines_facts body :
  let rest := PyStr.split PyStr.LF
                (PyStr.join NL
                   (List.filter (fun line => negb (PyStr.startswith "# " line))
                      (PyStr.split PyStr.LF body))) in
  Forall (fun line => PyStr.startswith "# " line = false) rest
  /\ Forall (fun line => no_lf line = true) rest
  /\ rest <> [].
Proof.
  intros rest. split; [|split].
  - subst rest.
    destruct (List.filter _ (PyStr.split PyStr.LF body)) as [|k ks] eqn:Hk.
    + by repeat constructor.
    + rewrite split_join; [rewrite <- Hk; apply filter_not_h1|done|].
      apply Forall_forall. intros line Hin. rewrite <- Hk in Hin.
      apply list_elem_of_In, filter_In in Hin as [Hin _].
      pose proof (split_lines_no_lf body) as Hall.
      rewrite Forall_forall in Hall. by apply Hall, list_elem_of_In.
  - apply split_lines_no_lf.
  - subst rest. rewrite split_line_rest. done.
Qed.

Lemma filter_all_kept (f : string -> bool) lines :
  Forall (fun line => f line = true) lines -> List.filter f lines = lines.
Proof.
  induction 1 as [|x xs Hx _ IH]; [done|]. simpl. by rewrite Hx, IH.
Qed.

(** X13. Rewriting the title of a body whose title was rewritten before puts the
    new title line first and adds one more empty line after it: the lines
    are the new title line, two empty lines, and the lines that followed the
    old title line and its empty line. *)
Theorem rewrite_title_again (t t' body : string) :
  no_lf t = true -> no_lf t' = true ->
  let once := PyStr.split PyStr.LF (rewrite_title t' body) in
  let twice := PyStr.split PyStr.LF (rewrite_title t (rewrite_title t' body)) in
  twice = ("# " +:+ t) :: "" :: "" :: drop 2 once
  /\ length twice = S (length once).
Proof.
  intros Ht Ht' once twice.
  pose proof (kept_lines_facts body) as (Hh1 & Hlf & Hne). cbv zeta in *.
  set (rest := PyStr.split PyStr.LF (PyStr.join NL _)) in *.
  assert (once = ("# " +:+ t') :: "" :: rest) as Honce
    by (subst once; by rewrite rewrite_title_lines).
  assert (twice = ("# " +:+ t) :: "" :: "" :: rest) as Htwice.
  { subst twice. rewrite rewrite_title_lines by done. fold once.
    rewrite Honce. cbn [List.filter].
    change (PyStr.startswith "# " ("# " +:+ t')) with true.
    change (PyStr.startswith "# " "") with false. cbn [negb].
    rewrite filter_all_kept.
    2:{ eapply Forall_impl; [exact Hh1|]. by intros line ->. }
    rewrite split_join; [done|done|]. by constructor. }
  rewrite Htwice, Honce. by split.
Qed.

Lemma rewrite_title_again_witness :
  PyStr.split PyStr.LF
    (rewrite_title "Final" (rewrite_title "Draft" ("intro" +:+ NL +:+ "more")))
  = ["# Final"; ""; ""; "intro"; "more"].
Proof.
  exact (proj1 (rewrite_title_again "Final" "Draft"
                  ("intro" +:+ NL +:+ "more") eq_refl eq_refl)).
Defined.

(** ** Word counts and titles (lines 29-37) *)

(** X19. The word count is 0 exactly for a body of whitespace only (the empty
    body included), and never negative. *)
Theorem count_words_zero_iff_blank (body : string) :
  (count_words body = 0%Z <-> Spec.all_space body = true)
  /\ (0 <= count_words body)%Z.
Proof.
  unfold count_words. split; [|lia]. split.
  - intros H0. pose proof (split_whitespace_tokens body) as Htok.
    destruct (PyStr.split_whitespace body); [|simpl in H0; lia].
    by inversion Htok.
  - intros Hb. by rewrite split_whitespace_all_space.
Qed.

Lemma rstrip_idem s : PyStr.rstrip (PyStr.rstrip s) = PyStr.rstrip s.
Proof.
  induction s as [|c s IH]; [done|]. simpl.
  destruct (PyStr.rstrip s) as [|a r] eqn:Hr.
  - destruct (PyStr.isspace c) eqn:Hc; [done|]. simpl. by rewrite Hc.
  - simpl. simpl in IH. by rewrite IH.
Qed.

Lemma rstrip_head c s :
  PyStr.isspace c = false ->
  exists r, PyStr.rstrip (String c s) = String c r.
Proof.
  intros Hc. simpl. destruct (PyStr.rstrip s); rewrite ?Hc; eauto.
Qed.

Lemma lstrip_head s :
  PyStr.lstrip s = ""
  \/ exists c r, PyStr.lstrip s = String c r /\ PyStr.isspace c = false.
Proof.
  induction s as [|c s IH]; [by left|]. simpl.
  destruct (PyStr.isspace c) eqn:Hc; [done|]. right. eauto.
Qed.

Lemma strip_idem s : PyStr.strip (PyStr.strip s) = PyStr.strip s.
Proof.
  unfold PyStr.strip.
  destruct (lstrip_head s) as [->|(c & r & -> & Hc)]; [done|].
  destruct (rstrip_head c r Hc) as [r' Hr]. rewrite Hr.
  cbn [PyStr.lstrip]. rewrite Hc, <- Hr. apply rstrip_idem.
Qed.

Lemma no_lf_lstrip s : no_lf s = true -> no_lf (PyStr.lstrip s) = true.
Proof.
  induction s as [|c s IH]; [done|]. intros Hs. simpl.
  destruct (PyStr.isspace c); [|done].
  simpl in Hs. apply andb_true_iff in Hs as [_ Hs]. auto.
Qed.

Lemma no_lf_rstrip s : no_lf s = true -> no_lf (PyStr.rstrip s) = true.
Proof.
  induction s as [|c s IH]; [done|]. intros Hs. simpl in *.
  apply andb_true_iff in Hs as [Hc Hs]. specialize (IH Hs).
  destruct (PyStr.rstrip s); [|simpl in *; by rewrite Hc].
  destruct (PyStr.isspace c); [done|]. simpl. by rewrite Hc.
Qed.

Lemma no_lf_line_rest s : no_lf (PyStr.line_rest s) = true.
Proof.
  induction s as [|c s IH]; [done|]. simpl.
  destruct (PyStr.is_lf c) eqn:Hc; [done|]. simpl. by rewrite Hc.
Qed.

Lemma no_lf_drop_chars n s :
  no_lf s = true -> no_lf (PyStr.drop_chars n s) = true.
Proof.
  revert s. induction n as [|n IH]; intros s Hs; [done|].
  destruct s as [|c s]; [done|]. simpl in *.
  apply andb_true_iff in Hs as [_ Hs]. auto.
Qed.

(** X18. A derived title never holds a line feed and never starts or ends with
    whitespace: stripping it again changes nothing. *)
Theorem extract_title_is_trimmed_line (body : string) :
  no_lf (extract_title body) = true
  /\ PyStr.strip (extract_title body) = extract_title body.
Proof.
  rewrite extract_title_lines.
  destruct (List.find heading_line (PyStr.split PyStr.LF body)) as [line|]
    eqn:Hfind; [|by split].
  split; [|apply strip_idem].
  apply find_some in Hfind as [Hin _].
  pose proof (split_lines_no_lf body) as Hall.
  rewrite Forall_forall in Hall.
  specialize (Hall line (proj2 (list_elem_of_In _ _) Hin)).
  unfold PyStr.strip. by apply no_lf_rstrip, no_lf_lstrip, no_lf_drop_chars.
Qed.


(** ** Routing (lines 180-223, 225-405, 411-431) *)

Lemma split_app_sep c x y :
  no_char c x = true ->
  PyStr.split c (x +:+ String c y) = x :: PyStr.split c y.
Proof.
  induction x as [|a x IH]; intros Hx.
  - change ("" +:+ String c y) with (String c y). simpl.
    by rewrite (proj2 (Ascii.eqb_eq c c) eq_refl).
  - simpl in Hx. apply andb_true_iff in Hx as [Ha Hx].
    apply negb_true_iff in Ha.
    rewrite str_app_cons. simpl. rewrite Ha. by rewrite IH.
Qed.

Lemma split_no_sep c x : no_char c x = true -> PyStr.split c x = [x].
Proof.
  induction x as [|a x IH]; intros Hx; [done|].
  simpl in Hx. apply andb_true_iff in Hx as [Ha Hx].
  apply negb_true_iff in Ha. simpl. rewrite Ha. by rewrite IH.
Qed.



Lemma str_length_app a b :
  String.length (a +:+ b) = (String.length a + String.length b)%nat.
Proof.
  induction a as [|c a IH]; [done|]. rewrite str_app_cons. simpl. by rewrite IH.
Qed.

Lemma drop_chars_app s q n :
  PyStr.drop_chars (String.length s + n) (s +:+ q) = PyStr.drop_chars n q.
Proof. induction s as [|c s IH]; [done|]. by rewrite str_app_cons. Qed.

Lemma endswith_app_longer p s q :
  (String.length p <= String.length q)%nat ->
  PyStr.endswith p (s +:+ q) = PyStr.endswith p q.
Proof.
  intros Hlen. unfold PyStr.endswith. rewrite str_length_app.
  replace (String.length s + String.length q - String.length p)%nat
    with (String.length s + (String.length q - String.length p))%nat by lia.
  rewrite drop_chars_app.
  replace (String.length p <=? String.length s + String.length q)%nat
    with true by (symmetry; apply Nat.leb_le; lia).
  replace (String.length p <=? String.length q)%nat
    with true by (symmetry; by apply Nat.leb_le).
  done.
Qed.

Lemma article_path_parts article_id tail_parts rest :
  no_char SLASH article_id = true ->
  PyStr.split SLASH rest = tail_parts ->
  PyStr.split SLASH ("/api/articles/" +:+ article_id +:+ String SLASH rest)
  = "" :: "api" :: "articles" :: article_id :: tail_parts.
Proof.
  intros Hid <-.
  change ("/api/articles/" +:+ article_id +:+ String SLASH rest)
    with ("" +:+ String SLASH
            ("api" +:+ String SLASH
               ("articles" +:+ String SLASH
                  (article_id +:+ String SLASH rest)))).
  by rewrite !split_app_sep.
Qed.

Lemma article_path_parts_last article_id :
  no_char SLASH article_id = true ->
  PyStr.split SLASH ("/api/articles/" +:+ article_id)
  = ["" ; "api"; "articles"; article_id].
Proof.
  intros Hid.
  change ("/api/articles/" +:+ article_id)
    with ("" +:+ String SLASH
            ("api" +:+ String SLASH ("articles" +:+ String SLASH article_id))).
  rewrite !split_app_sep by done. by rewrite split_no_sep.
Qed.

(** X16. The URL of every article route leads to its handler with the id it was
    built from, for every id without a slash: get, status read, delete,
    update, status change and schedule. *)
Theorem article_urls_reach_their_handlers (article_id : string) :
  no_char SLASH article_id = true ->
  route_get ("/api/articles/" +:+ article_id) = GetOne article_id
  /\ route_get ("/api/articles/status/" +:+ article_id) = GetStatusOf article_id
  /\ route_delete ("/api/articles/" +:+ article_id) = DeleteOne article_id
  /\ route_post ("/api/articles/" +:+ article_id +:+ "/update")
     = PostUpdate article_id
  /\ route_post ("/api/articles/" +:+ article_id +:+ "/status")
     = PostStatus article_id
  /\ route_post ("/api/articles/" +:+ article_id +:+ "/schedule")
     = PostSchedule article_id.
Proof.
  intros Hid.
  assert (forall suffix,
            no_char SLASH suffix = true ->
            PyStr.split SLASH
              ("/api/articles/" +:+ article_id +:+ String SLASH suffix)
            = ["" ; "api"; "articles"; article_id; suffix]) as Hparts.
  { intros suffix Hs. apply article_path_parts; [done|by apply split_no_sep]. }
  split; [|split; [|split; [|split; [|split]]]].
  - unfold route_get. rewrite article_path_parts_last by done. reflexivity.
  - unfold route_get.
    change ("/api/articles/status/" +:+ article_id)
      with ("/api/articles/" +:+ "status" +:+ String SLASH article_id).
    rewrite (article_path_parts "status" [article_id] article_id eq_refl)
      by (by apply split_no_sep).
    reflexivity.
  - unfold route_delete. rewrite article_path_parts_last by done. reflexivity.
  - unfold route_post.
    change ("/update") with (String SLASH "update").
    rewrite (Hparts "update" eq_refl).
    change (String SLASH "update") with "/update".
    rewrite <- !str_app_assoc, endswith_app, !str_app_assoc. reflexivity.
  - unfold route_post.
    change ("/status") with (String SLASH "status").
    rewrite (Hparts "status" eq_refl).
    change (String SLASH "status") with "/status".
    rewrite <- !str_app_assoc.
    rewrite endswith_app, (endswith_app_longer "/update") by (simpl; lia).
    rewrite !str_app_assoc. reflexivity.
  - unfold route_post.
    change ("/schedule") with (String SLASH "schedule").
    rewrite (Hparts "schedule" eq_refl).
    change (String SLASH "schedule") with "/schedule".
    rewrite <- !str_app_assoc.
    rewrite endswith_app, (endswith_app_longer "/update"),
      (endswith_app_longer "/status") by (simpl; lia).
    rewrite !str_app_assoc. reflexivity.
Qed.

Lemma article_urls_witness :
  route_get "/api/articles/my-post" = GetOne "my-post"
  /\ route_post "/api/articles/my-post/schedule" = PostSchedule "my-post".
Proof.
  pose proof (article_urls_reach_their_handlers "my-post" eq_refl) as H.
  exact (conj (proj1 H) (proj2 (proj2 (proj2 (proj2 (proj2 H)))))).
Defined.




(** ** Bulk scheduling (lines 339-361) *)

Lemma bulk_schedule_within_month_witness :
  fst (post_bulk_schedule ["a"; "b"; "c"] (Some "2024-03-10T09:30:15")
         (Some 2%Z) (Server None ∅))
  = Sent 200 (in_month_dates (PyDatetime.Datetime 2024 3 10 9 30 15 0) 2
                ["a"; "b"; "c"]).
Proof.
  refine (proj1 (bulk_schedule_within_month ["a"; "b"; "c"]
                   "2024-03-10T09:30:15" 2
                   (PyDatetime.Datetime 2024 3 10 9 30 15 0) (Server None ∅)
                   ltac:(discriminate) eq_refl _)).
  intros k Hk. simpl in Hk.
  change (1 <= 10 + Z.of_nat k * 2 <= 31)%Z. lia.
Defined.

Lemma bulk_schedule_loop_drafts ids : forall cur n results st,
  drafts (snd (bulk_schedule_loop ids cur n results st)) = drafts st.
Proof.
  induction ids as [|a ids IH]; intros cur n results st; [done|].
  simpl. pose proof (load_article_metadata_drafts a st) as Hd.
  destruct (load_article_metadata a st) as [m st1]. simpl in Hd.
  destruct (PyDatetime.replace_day _ _); [|done].
  by rewrite IH.
Qed.

Lemma bulk_schedule_loop_not_failed ids : forall cur n results st code msg,
  fst (bulk_schedule_loop ids cur n results st) <> Failed code msg.
Proof.
  induction ids as [|a ids IH]; intros cur n results st code msg; [done|].
  simpl. destruct (load_article_metadata a st) as [m st1].
  destruct (PyDatetime.replace_day _ _); [apply IH|done].
Qed.

(** X2. Bulk scheduling answers 400 exactly when the id list is empty or the
    start date is absent or empty, and then changes nothing.  In every case
    it writes no file and touches no record of an id that is not listed; it
    asks for no document of a listed id. *)
Theorem bulk_schedule_request_check (ids : list string)
  (startDate : option string) (n : option Z) (st : server) :
  let run := post_bulk_schedule ids startDate n st in
  (fst run = Failed 400 "Articles and start date required"
   <-> ids = [] \/ opt_truthy startDate = false)
  /\ (ids = [] \/ opt_truthy startDate = false -> snd run = st)
  /\ drafts (snd run) = drafts st
  /\ (forall k, k ∉ ids ->
        article_metadata (snd run) !! k = article_metadata st !! k).
Proof.
  unfold post_bulk_schedule. cbv zeta.
  destruct (bool_decide (ids = [])) eqn:Hids.
  { apply bool_decide_eq_true in Hids. simpl. repeat split; auto. }
  apply bool_decide_eq_false in Hids.
  destruct (opt_truthy startDate) eqn:Ht; simpl.
  2:{ repeat split; auto. }
  destruct (PyDatetime.fromisoformat _) as [cur|].
  - split; [|split; [|split]].
    + split; [|by intros [?|?]].
      intros H. by apply bulk_schedule_loop_not_failed in H.
    + by intros [?|?].
    + apply bulk_schedule_loop_drafts.
    + intros k Hk. by apply bulk_schedule_loop_frame.
  - repeat split; try done; by intros [?|?].
Qed.

Lemma scheduled_on_effective date article_id a m st d :
  scheduled_on date
    (effective_metadata article_id
       (Server d (<[a := scheduled_on m (effective_metadata a st)]>
                    (article_metadata st))))
  = scheduled_on date (effective_metadata article_id st).
Proof.
  rewrite effective_metadata_insert. by case_decide; subst.
Qed.

Lemma bulk_schedule_step a cur st :
  let '(m, st1) := load_article_metadata a st in
  save_article_metadata a
    (with_publishDate (Some (minute_text cur)) (with_status "scheduled" m)) st1
  = Server (drafts st)
      (<[a := scheduled_on (Some (minute_text cur)) (effective_metadata a st)]>
         (article_metadata st)).
Proof.
  exact (load_then_save_state a
           (fun m => with_publishDate (Some (minute_text cur))
                       (with_status "scheduled" m)) st).
Qed.

Lemma bulk_schedule_loop_last n ids : forall cur results st,
  valid_datetime cur -> stays_in_month n cur ids ->
  forall (k : nat) article_id,
    ids !! k = Some article_id -> article_id ∉ drop (S k) ids ->
    article_metadata (snd (bulk_schedule_loop ids cur n results st)) !! article_id
    = Some (scheduled_on
              (Some (minute_text
                       (on_day cur (PyDatetime.day cur + Z.of_nat k * n))))
              (effective_metadata article_id st)).
Proof.
  induction ids as [|a ids IH]; intros cur results st Hv Hin k article_id Hk Hlast;
    [done|].
  apply stays_in_month_step in Hin as [Hday Hin].
  destruct (replace_day_in_month cur _ Hv Hday) as [Hr Hv'].
  cbn [bulk_schedule_loop]. pose proof (bulk_schedule_step a cur st) as Hstep.
  unfold minute_text in Hstep.
  destruct (load_article_metadata a st) as [m st1].
  rewrite Hr, Hstep. clear Hstep.
  destruct k as [|k]; simpl in Hk, Hlast.
  - injection Hk as <-. rewrite bulk_schedule_loop_frame by done.
    simpl. rewrite lookup_insert_eq.
    by rewrite Z.add_0_r, on_day_same.
  - rewrite (IH _ _ _ Hv' Hin k article_id Hk Hlast).
    rewrite on_day_twice.
    fold (minute_text cur). rewrite scheduled_on_effective.
    replace (PyDatetime.day (on_day cur (PyDatetime.day cur + n))
             + Z.of_nat k * n)%Z
      with (PyDatetime.day cur + Z.of_nat (S k) * n)%Z by (simpl; lia).
    reflexivity.
Qed.

(** X4. While the walk stays inside the month of the start date, an id that is
    listed several times ends with the date of its last occurrence: the
    record of the id at position k, if the id does not come again later, is
    "scheduled" with the k-th date, sources and word goal kept. *)
Theorem bulk_schedule_last_occurrence_wins (ids : list string)
  (startDate : string) (n : Z) (start : PyDatetime.datetime) (st : server)
  (k : nat) (article_id : string) :
  PyDatetime.fromisoformat startDate = Some start ->
  stays_in_month n start ids ->
  ids !! k = Some article_id ->
  article_id ∉ drop (S k) ids ->
  article_metadata (snd (post_bulk_schedule ids (Some startDate) (Some n) st))
    !! article_id
  = Some (scheduled_on
            (Some (minute_text
                     (on_day start (PyDatetime.day start + Z.of_nat k * n))))
            (effective_metadata article_id st)).
Proof.
  intros Hparse Hin Hk Hlast. unfold post_bulk_schedule.
  assert (bool_decide (ids = []) = false) as ->.
  { apply bool_decide_eq_false. by intros ->. }
  assert (opt_truthy (Some startDate) = true) as ->.
  { simpl. unfold truthy. destruct (String.eqb_spec startDate ""); [|done].
    subst. discriminate. }
  simpl. rewrite Hparse.
  apply bulk_schedule_loop_last; try done.
  by eapply fromisoformat_valid.
Qed.

Lemma bulk_schedule_last_occurrence_witness :
  article_metadata
    (snd (post_bulk_schedule ["a"; "b"; "a"] (Some "2024-03-10") (Some 3%Z)
            (Server None ∅))) !! "a"
  = Some (Metadata "scheduled" (Some "2024-03-16T00:00") [] 1000).
Proof.
  refine (bulk_schedule_last_occurrence_wins ["a"; "b"; "a"] "2024-03-10" 3
            (PyDatetime.Datetime 2024 3 10 0 0 0 0) (Server None ∅) 2 "a"
            eq_refl _ eq_refl _).
  - intros k Hk. simpl in Hk.
    change (1 <= 10 + Z.of_nat k * 3 <= 31)%Z. lia.
  - simpl. apply not_elem_of_nil.
Defined.


Lemma replace_day_out_of_month dt d :
  ~ (1 <= d <= PyDatetime.days_in_month (PyDatetime.year dt)
                 (PyDatetime.month dt))%Z ->
  PyDatetime.replace_day dt d = None.
Proof.
  intros Hd. unfold PyDatetime.replace_day, PyDatetime.new_datetime.
  assert (PyDatetime.check_date_fields (PyDatetime.year dt)
            (PyDatetime.month dt) d = false) as ->; [|done].
  unfold PyDatetime.check_date_fields.
  destruct (Z.leb_spec 1 d), (Z.leb_spec d
    (PyDatetime.days_in_month (PyDatetime.year dt) (PyDatetime.month dt)));
    rewrite ?andb_false_r; try done; lia.
Qed.

Lemma bulk_schedule_loop_app n pre more : forall cur results st,
  valid_datetime cur -> stays_in_month n cur pre ->
  bulk_schedule_loop (pre ++ more) cur n results st
  = bulk_schedule_loop more
      (on_day cur (PyDatetime.day cur + Z.of_nat (length pre) * n)) n
      (results ++ in_month_dates cur n pre)
      (snd (bulk_schedule_loop pre cur n results st)).
Proof.
  induction pre as [|a pre IH]; intros cur results st Hv Hin.
  - simpl. rewrite Z.add_0_r, on_day_same. unfold in_month_dates. simpl.
    by rewrite app_nil_r.
  - apply stays_in_month_step in Hin as [Hday Hin].
    destruct (replace_day_in_month cur _ Hv Hday) as [Hr Hv'].
    cbn [bulk_schedule_loop app].
    destruct (load_article_metadata a st) as [m st1]. rewrite Hr.
    rewrite IH by done. rewrite on_day_twice, in_month_dates_cons.
    rewrite <- app_assoc. simpl app at 2.
    replace (PyDatetime.day (on_day cur (PyDatetime.day cur + n))
             + Z.of_nat (length pre) * n)%Z
      with (PyDatetime.day cur + Z.of_nat (length (a :: pre)) * n)%Z
      by (simpl; lia).
    reflexivity.
Qed.

Lemma last_occurrence (x : string) l :
  x ∈ l -> exists k, l !! k = Some x /\ x ∉ drop (S k) l.
Proof.
  induction l as [|y l IH]; intros Hin; [by apply elem_of_nil in Hin|].
  destruct (decide (x ∈ l)) as [Hl|Hl].
  - destruct (IH Hl) as (k & Hk & Hlast). by exists (S k).
  - apply elem_of_cons in Hin as [->|Hin]; [|done].
    exists 0%nat. by split.
Qed.

(** X3. Bulk scheduling is not all or nothing.  When the walk leaves the month
    right after an id, the request raises there: that id and the ids before
    it are left scheduled, no other record is touched, and the ids after it
    are never scheduled. *)
Theorem bulk_schedule_stops_at_month_end (pre : list string) (a : string)
  (rest : list string) (startDate : string) (n : Z)
  (start : PyDatetime.datetime) (st : server) :
  PyDatetime.fromisoformat startDate = Some start ->
  stays_in_month n start pre ->
  ~ (1 <= PyDatetime.day start + (Z.of_nat (length pre) + 1) * n
     <= PyDatetime.days_in_month (PyDatetime.year start)
          (PyDatetime.month start))%Z ->
  let run := post_bulk_schedule (pre ++ a :: rest) (Some startDate) (Some n) st in
  fst run = Raised ValueError
  /\ (forall article_id, article_id ∈ pre ++ [a] ->
        status <$> article_metadata (snd run) !! article_id = Some "scheduled")
  /\ (forall article_id, article_id ∉ pre ++ [a] ->
        article_metadata (snd run) !! article_id
        = article_metadata st !! article_id).
Proof.
  intros Hparse Hin Hout run. subst run. unfold post_bulk_schedule.
  assert (bool_decide (pre ++ a :: rest = []) = false) as ->.
  { apply bool_decide_eq_false. by destruct pre. }
  assert (opt_truthy (Some startDate) = true) as ->.
  { simpl. unfold truthy. destruct (String.eqb_spec startDate ""); [|done].
    subst. discriminate. }
  simpl. rewrite Hparse.
  pose proof (fromisoformat_valid _ _ Hparse) as Hv.
  rewrite (bulk_schedule_loop_app n pre (a :: rest) start [] st Hv Hin).
  set (cur := on_day start _).
  set (st_pre := snd (bulk_schedule_loop pre start n [] st)).
  cbn [bulk_schedule_loop].
  pose proof (bulk_schedule_step a cur st_pre) as Hstep.
  unfold minute_text in Hstep.
  destruct (load_article_metadata a st_pre) as [m st1]. rewrite Hstep.
  rewrite replace_day_out_of_month.
  2:{ subst cur. simpl.
      replace (PyDatetime.day start + Z.of_nat (length pre) * n + n)%Z
        with (PyDatetime.day start + (Z.of_nat (length pre) + 1) * n)%Z by lia.
      exact Hout. }
  split; [reflexivity|]. simpl. split.
  - intros article_id Hid.
    destruct (decide (a = article_id)) as [->|Hne].
    { by rewrite lookup_insert_eq. }
    rewrite lookup_insert_ne by done.
    apply elem_of_app in Hid as [Hid|Hid].
    2:{ apply list_elem_of_singleton in Hid. congruence. }
    destruct (last_occurrence _ _ Hid) as (k & Hk & Hlast).
    subst st_pre.
    by rewrite (bulk_schedule_loop_last n pre start [] st Hv Hin k article_id
                  Hk Hlast).
  - intros article_id Hid.
    apply not_elem_of_app in Hid as [Hpre Ha].
    apply not_elem_of_cons in Ha as [Ha _].
    rewrite lookup_insert_ne by done. subst st_pre.
    by apply bulk_schedule_loop_frame.
Qed.

Lemma bulk_schedule_stops_witness :
  let run := post_bulk_schedule ["a"; "b"; "c"; "d"] (Some "2024-04-27")
               (Some 2%Z) (Server None ∅) in
  fst run = Raised ValueError
  /\ (forall article_id, article_id ∈ ["a"; "b"] ->
        status <$> article_metadata (snd run) !! article_id = Some "scheduled")
  /\ (forall article_id, article_id ∉ ["a"; "b"] ->
        article_metadata (snd run) !! article_id = None).
Proof.
  refine (bulk_schedule_stops_at_month_end ["a"] "b" ["c"; "d"] "2024-04-27" 2
            (PyDatetime.Datetime 2024 4 27 0 0 0 0) (Server None ∅)
            eq_refl _ _).
  - intros k Hk. simpl in Hk.
    change (1 <= 27 + Z.of_nat k * 2 <= 30)%Z. lia.
  - change (~ (1 <= 27 + (1 + 1) * 2 <= 30)%Z). lia.
Defined.


(** ** Dates written by bulk scheduling are dates the scan reads
    (lines 349-358 and 384) *)

Lemma digit_value_char k :
  (0 <= k <= 9)%Z ->
  PyDatetime.digit_value (PyDatetime.digit_char k) = Some k.
Proof.
  intros Hk.
  assert (k = 0 \/ k = 1 \/ k = 2 \/ k = 3 \/ k = 4 \/ k = 5 \/ k = 6
          \/ k = 7 \/ k = 8 \/ k = 9)%Z as Hcases by lia.
  repeat destruct Hcases as [->|Hcases]; try reflexivity.
  by subst.
Qed.

Lemma parse_digits_step w : forall acc s,
  PyDatetime.parse_digits (S w) acc s
  = match PyDatetime.parse_digits w acc s with
    | Some (a, r) => PyDatetime.parse_digits 1 a r
    | None => None
    end.
Proof.
  induction w as [|w IH]; intros acc s; [reflexivity|].
  change (PyDatetime.parse_digits (S (S w)) acc s)
    with (match s with
          | EmptyString => None
          | String c s' =>
              match PyDatetime.digit_value c with
              | Some d => PyDatetime.parse_digits (S w) (acc * 10 + d) s'
              | None => None
              end
          end).
  destruct s as [|c s]; [reflexivity|].
  cbn [PyDatetime.parse_digits].
  destruct (PyDatetime.digit_value c) as [d|]; [|reflexivity].
  apply IH.
Qed.

Lemma parse_zero_padded w : forall x acc rest,
  (0 <= x < 10 ^ Z.of_nat w)%Z ->
  PyDatetime.parse_digits w acc (PyDatetime.zero_padded w x +:+ rest)
  = Some ((acc * 10 ^ Z.of_nat w + x)%Z, rest).
Proof.
  induction w as [|w IH]; intros x acc rest Hx.
  - simpl in *. do 2 f_equal. lia.
  - rewrite parse_digits_step. cbn [PyDatetime.zero_padded].
    rewrite str_app_assoc.
    assert (0 <= x / 10 < 10 ^ Z.of_nat w)%Z as Hdiv.
    { rewrite Nat2Z.inj_succ, Z.pow_succ_r in Hx by lia.
      split; [apply Z.div_pos; lia|].
      apply Z.div_lt_upper_bound; lia. }
    rewrite IH by done.
    change (String (PyDatetime.digit_char (x mod 10)) "" +:+ rest)
      with (String (PyDatetime.digit_char (x mod 10)) rest).
    cbn [PyDatetime.parse_digits].
    rewrite digit_value_char
      by (pose proof (Z.mod_pos_bound x 10 ltac:(lia)); lia).
    do 2 f_equal. rewrite Nat2Z.inj_succ, Z.pow_succ_r by lia.
    pose proof (Z.div_mod x 10 ltac:(lia)). lia.
Qed.

Lemma zero_padded_length w : forall x,
  String.length (PyDatetime.zero_padded w x) = w.
Proof.
  induction w as [|w IH]; intros x; [reflexivity|].
  cbn [PyDatetime.zero_padded]. rewrite str_length_app, IH. simpl. lia.
Qed.

Lemma take_chars_app s n rest :
  PyStr.take_chars (String.length s + n) (s +:+ rest)
  = s +:+ PyStr.take_chars n rest.
Proof.
  induction s as [|c s IH]; [reflexivity|].
  rewrite !str_app_cons. simpl. by rewrite IH.
Qed.

Lemma take_zero_padded w x n k rest :
  k = (w + n)%nat ->
  PyStr.take_chars k (PyDatetime.zero_padded w x +:+ rest)
  = PyDatetime.zero_padded w x +:+ PyStr.take_chars n rest.
Proof.
  intros ->. rewrite <- (zero_padded_length w x) at 1. apply take_chars_app.
Qed.

Lemma take_chars_cons n c s :
  PyStr.take_chars (S n) (String c "" +:+ s)
  = String c "" +:+ PyStr.take_chars n s.
Proof. reflexivity. Qed.

Lemma minute_text_shape dt :
  minute_text dt
  = PyDatetime.zero_padded 4 (PyDatetime.year dt) +:+ "-"
    +:+ PyDatetime.zero_padded 2 (PyDatetime.month dt) +:+ "-"
    +:+ PyDatetime.zero_padded 2 (PyDatetime.day dt) +:+ "T"
    +:+ PyDatetime.zero_padded 2 (PyDatetime.hour dt) +:+ ":"
    +:+ PyDatetime.zero_padded 2 (PyDatetime.minute dt) +:+ "".
Proof.
  unfold minute_text, PyDatetime.isoformat.
  rewrite (take_zero_padded 4 _ 12 16) by reflexivity.
  rewrite (take_chars_cons 11).
  rewrite (take_zero_padded 2 _ 9 11) by reflexivity.
  rewrite (take_chars_cons 8).
  rewrite (take_zero_padded 2 _ 6 8) by reflexivity.
  rewrite (take_chars_cons 5).
  rewrite (take_zero_padded 2 _ 3 5) by reflexivity.
  rewrite (take_chars_cons 2).
  rewrite (take_zero_padded 2 _ 0 2) by reflexivity.
  reflexivity.
Qed.

Lemma days_in_month_le_31 y m : (PyDatetime.days_in_month y m <= 31)%Z.
Proof.
  unfold PyDatetime.days_in_month.
  destruct ((m =? 2)%Z && PyDatetime.is_leap y); [lia|].
  unfold PyDatetime.DAYS_IN_MONTH. generalize (Z.to_nat m). intros k.
  do 13 (destruct k as [|k]; [simpl; lia|]). simpl. destruct k; lia.
Qed.


Lemma fromisoformat_minute_text dt :
  valid_datetime dt ->
  PyDatetime.fromisoformat (minute_text dt) = Some (to_minute dt).
Proof.
  unfold valid_datetime. intros Hv.
  apply andb_true_iff in Hv as [Hdate Htime].
  assert (1 <= PyDatetime.year dt <= 9999 /\ 1 <= PyDatetime.month dt <= 12
          /\ 1 <= PyDatetime.day dt <= 31 /\ 0 <= PyDatetime.hour dt <= 23
          /\ 0 <= PyDatetime.minute dt <= 59)%Z as (Hy & Hm & Hd & Hh & Hmi).
  { pose proof (days_in_month_le_31 (PyDatetime.year dt) (PyDatetime.month dt)).
    unfold PyDatetime.check_date_fields in Hdate.
    unfold PyDatetime.check_time_fields in Htime.
    repeat match goal with
           | H : _ && _ = true |- _ => apply andb_true_iff in H as [H ?]
           end.
    lia. }
  rewrite minute_text_shape. unfold PyDatetime.fromisoformat.
  assert (forall w x rest,
            (0 <= x < 10 ^ Z.of_nat w)%Z ->
            PyDatetime.parse_digits w 0 (PyDatetime.zero_padded w x +:+ rest)
            = Some (x, rest)) as Hparse.
  { intros w x rest Hx. rewrite parse_zero_padded by done.
    by rewrite Z.mul_0_l, Z.add_0_l. }
  assert (forall c rest,
            PyDatetime.expect c (String c "" +:+ rest) = Some rest) as Hexpect.
  { intros c rest. change (String c "" +:+ rest) with (String c rest).
    cbn [PyDatetime.expect]. by rewrite (proj2 (Ascii.eqb_eq c c) eq_refl). }
  rewrite (Hparse 4) by (change (10 ^ Z.of_nat 4)%Z with 10000%Z; lia).
  cbn [mbind option_bind]. rewrite Hexpect. cbn [mbind option_bind].
  rewrite (Hparse 2) by (change (10 ^ Z.of_nat 2)%Z with 100%Z; lia).
  cbn [mbind option_bind]. rewrite Hexpect. cbn [mbind option_bind].
  rewrite (Hparse 2) by (change (10 ^ Z.of_nat 2)%Z with 100%Z; lia).
  cbn [mbind option_bind].
  change ("T" +:+ ?x) with (String "T" x). cbv iota.
  unfold PyDatetime.parse_time.
  rewrite (Hparse 2) by (change (10 ^ Z.of_nat 2)%Z with 100%Z; lia).
  cbn [mbind option_bind].
  change (":" +:+ ?x) with (String ":" x) at 1. cbv iota.
  change (String ":" ?x) with (":" +:+ x) at 1.
  rewrite Hexpect. cbn [mbind option_bind].
  rewrite (Hparse 2) by (change (10 ^ Z.of_nat 2)%Z with 100%Z; lia).
  cbn [mbind option_bind].
  unfold PyDatetime.new_datetime, to_minute. rewrite Hdate.
  assert (PyDatetime.check_time_fields (PyDatetime.hour dt)
            (PyDatetime.minute dt) 0 0 = true) as ->; [|done].
  unfold PyDatetime.check_time_fields.
  repeat (apply andb_true_iff; split); try done; lia.
Qed.

Lemma bulk_schedule_loop_readable n ids : forall cur results st res,
  valid_datetime cur ->
  fst (bulk_schedule_loop ids cur n results st) = Sent 200 res ->
  (Forall readable_pair results -> Forall readable_pair res)
  /\ forall article_id,
       article_id ∈ ids \/ has_readable_date st article_id ->
       has_readable_date (snd (bulk_schedule_loop ids cur n results st))
         article_id.
Proof.
  induction ids as [|a ids IH]; intros cur results st res Hv Hres.
  - simpl in *. injection Hres as <-. split; [done|].
    intros article_id [Hin|HQ]; [by apply elem_of_nil in Hin|done].
  - cbn [bulk_schedule_loop] in *.
    pose proof (bulk_schedule_step a cur st) as Hstep.
    unfold minute_text in Hstep.
    destruct (load_article_metadata a st) as [m st1].
    rewrite Hstep in *. clear Hstep. fold (minute_text cur) in *.
    destruct (PyDatetime.replace_day cur (PyDatetime.day cur + n))
      as [cur'|] eqn:Hr; [|done].
    apply new_datetime_some in Hr as [_ Hv'].
    destruct (IH _ _ _ _ Hv' Hres) as [Hpairs Hrecords]. split.
    + intros Hall. apply Hpairs, Forall_app. split; [done|].
      repeat constructor. exists (to_minute cur).
      split; [by apply fromisoformat_minute_text|by split].
    + intros article_id Hid. apply Hrecords.
      destruct (decide (article_id = a)) as [->|Hne].
      * right. exists (minute_text cur), (to_minute cur).
        simpl. rewrite lookup_insert_eq.
        split; [done|]. split; [by apply fromisoformat_minute_text|by split].
      * destruct Hid as [Hin|HQ].
        { left. by apply elem_of_cons in Hin as [?|?]. }
        right. destruct HQ as (date & dt & Hl & Hp).
        exists date, dt. simpl. by rewrite lookup_insert_ne.
Qed.

(** X5. Every date a bulk scheduling that answers writes can be read by the
    reminder scan: each date of the reply, and the publish date of every
    listed id afterwards, parses with [fromisoformat] to a date and time with
    no seconds and no fraction. *)
Theorem bulk_scheduled_dates_read_back (ids : list string)
  (startDate : option string) (n : option Z) (st : server)
  (results : list (string * string)) :
  fst (post_bulk_schedule ids startDate n st) = Sent 200 results ->
  Forall readable_pair results
  /\ forall article_id, article_id ∈ ids ->
       has_readable_date (snd (post_bulk_schedule ids startDate n st))
         article_id.
Proof.
  unfold post_bulk_schedule.
  destruct (bool_decide (ids = []) || negb (opt_truthy startDate)); [done|].
  destruct (PyDatetime.fromisoformat (default "" startDate)) as [cur|] eqn:Hp;
    [|done].
  intros Hres. pose proof (fromisoformat_valid _ _ Hp) as Hv.
  destruct (bulk_schedule_loop_readable (default 1%Z n) ids cur [] st results
              Hv Hres) as [Hpairs Hrecords].
  split; [by apply Hpairs|]. intros article_id Hin. apply Hrecords. by left.
Qed.

Lemma bulk_scheduled_dates_witness :
  Forall readable_pair
    [("a", "2024-03-10T09:30"); ("b", "2024-03-12T09:30");
     ("c", "2024-03-14T09:30")].
Proof.
  refine (proj1 (bulk_scheduled_dates_read_back ["a"; "b"; "c"]
                   (Some "2024-03-10T09:30:15") (Some 2%Z) (Server None ∅)
                   _ _)).
  vm_compute. reflexivity.
Defined.
